(** * typingmind-mcp: ClickUp and Google Ads adapters, report analyzer, tool dispatcher

    A shallow embedding of [lib/clickUp.js], [lib/googleAds.js],
    [lib/auth.js] and [typingmind-mcp-server.js], the properties of the
    specification that can be settled on it, and further properties read off
    the code.

    Conventions of the embedding:
    - JavaScript strings are [string]s of bytes (UTF-8);
    - JavaScript numbers that hold metrics and money are IEEE-754 binary64
      values ([number], from [SpecFloat]); a missing numeric field is
      [NaN], which is what [undefined] turns into in every arithmetic and
      comparison the code performs on these fields;
    - integer-valued quantities (epoch milliseconds, day counts, lengths,
      status codes) are [Z] or [nat]: every operation done on them is exact
      in binary64 for the magnitudes involved;
    - [process.env] is a [gmap string string], plain objects whose set of
      keys matters are [gmap string value];
    - [async] functions are run to completion in a monad that threads the
      trace of observable events (console lines and calls to remote
      services) and either returns or throws; a rejected promise that is
      awaited is a throw;
    - the remote services, the environment, the clock and the time zone are
      the fields of a [World]; a remote service answers a given request the
      same way each time, and one run reads the clock as one instant. *)

From Stdlib Require Import ZArith List Ascii String Bool Lia.
From Stdlib Require Import Floats.SpecFloat.
From stdpp Require Import base option list gmap strings pretty.

Local Open Scope Z_scope.

#[local] Arguments String.append : simpl nomatch.

(** ** Strings *)

(** [s.startsWith(pat)], returning what follows the prefix. *)
Fixpoint strip_prefix (pat s : string) : option string :=
  match pat, s with
  | EmptyString, _ => Some s
  | String a pat', String b s' =>
      if Ascii.eqb a b then strip_prefix pat' s' else None
  | String _ _, EmptyString => None
  end.

(** The first occurrence of [pat] in [s]: the text before it and the text
    after it ([s.indexOf(pat)] with both sides sliced). *)
Fixpoint split_first (pat s : string) : option (string * string) :=
  match strip_prefix pat s with
  | Some rest => Some (EmptyString, rest)
  | None =>
      match s with
      | EmptyString => None
      | String c s' =>
          match split_first pat s' with
          | Some (before, after) => Some (String c before, after)
          | None => None
          end
      end
  end.

(** [s.includes(pat)] *)
Definition includes (s pat : string) : bool :=
  match split_first pat s with Some _ => true | None => false end.

(** [GetSubstitution] of ECMA-262 for a pattern that is a string: there are
    no captures, so only [$$], [$&], [$`] and [$'] are special. *)
Fixpoint getSubstitution (matched before after repl : string) : string :=
  match repl with
  | EmptyString => EmptyString
  | String c tl =>
      if Ascii.eqb c "$" then
        match tl with
        | EmptyString => String c EmptyString
        | String d rest =>
            if Ascii.eqb d "$" then
              String "$" (getSubstitution matched before after rest)
            else if Ascii.eqb d "&" then
              matched +:+ getSubstitution matched before after rest
            else if Ascii.eqb d "`" then
              before +:+ getSubstitution matched before after rest
            else if Ascii.eqb d "'" then
              after +:+ getSubstitution matched before after rest
            else String c (getSubstitution matched before after tl)
        end
      else String c (getSubstitution matched before after tl)
  end.

(** [s.replace(pat, repl)] for a string [pat]: the first occurrence only. *)
Definition replace (s pat repl : string) : string :=
  match split_first pat s with
  | Some (before, after) =>
      before +:+ getSubstitution pat before after repl +:+ after
  | None => s
  end.

(** No character of [s] is a dollar sign. *)
Fixpoint no_dollar (s : string) : bool :=
  match s with
  | EmptyString => true
  | String c s' => negb (Ascii.eqb c "$") && no_dollar s'
  end.

(** [s.replace(/-/g, '')] *)
Fixpoint remove_dashes (s : string) : string :=
  match s with
  | EmptyString => EmptyString
  | String c s' =>
      if Ascii.eqb c "-" then remove_dashes s' else String c (remove_dashes s')
  end.

Definition lower_ascii (c : ascii) : ascii :=
  let n := N_of_ascii c in
  if ((65 <=? n) && (n <=? 90))%N then ascii_of_N (n + 32) else c.

(** [s.toLowerCase()], on the ASCII letters (the vocabulary it is compared
    with is ASCII). *)
Fixpoint toLowerCase (s : string) : string :=
  match s with
  | EmptyString => EmptyString
  | String c s' => String (lower_ascii c) (toLowerCase s')
  end.

(** [s.split('/')[1]]: [None] is [undefined]. *)
Definition split_slash_1 (s : string) : option string :=
  match split_first "/" s with
  | None => None
  | Some (_, rest) =>
      match split_first "/" rest with
      | None => Some rest
      | Some (segment, _) => Some segment
      end
  end.

(** [s.padStart(2, '0')] *)
Definition padStart2 (s : string) : string :=
  match s with
  | EmptyString => "00"
  | String c EmptyString => String "0" s
  | _ => s
  end.

Definition hex_digit (n : N) : ascii :=
  match n with
  | 10 => "A" | 11 => "B" | 12 => "C" | 13 => "D" | 14 => "E" | 15 => "F"
  | _ => pretty_N_char n
  end%N%char.

Definition uri_unreserved (c : ascii) : bool :=
  let n := N_of_ascii c in
  (((65 <=? n) && (n <=? 90)) || ((97 <=? n) && (n <=? 122))
   || ((48 <=? n) && (n <=? 57))
   || existsb (Ascii.eqb c)
        ["-"; "_"; "."; "!"; "~"; "*"; "'"; "("; ")"]%char)%N.

(** [encodeURIComponent(s)] on the UTF-8 bytes of [s]; a string of bytes has
    no lone surrogate, the one input on which the function throws. *)
Fixpoint encodeURIComponent (s : string) : string :=
  match s with
  | EmptyString => EmptyString
  | String c s' =>
      if uri_unreserved c then String c (encodeURIComponent s')
      else
        let n := N_of_ascii c in
        String "%" (String (hex_digit (n / 16)) (String (hex_digit (n mod 16))
          (encodeURIComponent s')))
  end.

(** A JavaScript value is falsy when it is [undefined] or the empty string. *)
Definition truthy (o : option string) : bool :=
  match o with
  | Some (String _ _) => true
  | _ => false
  end.

(** ** Numbers *)

(** IEEE-754 binary64, the JavaScript Number type. *)
Definition number : Type := spec_float.

Definition num_prec : Z := 53.
Definition num_emax : Z := 1024.

Definition NaN : number := S754_nan.
Definition num_zero : number := S754_zero false.
Definition num_add : number -> number -> number := SFadd num_prec num_emax.
Definition num_div : number -> number -> number := SFdiv num_prec num_emax.
Definition num_lt : number -> number -> bool := SFltb.

(** The Number that an integer literal denotes. *)
Definition num_of_Z (n : Z) : number := binary_normalize num_prec num_emax n 0 false.

(** The Number that the decimal literal [n / 10^digits] denotes: the binary64
    value nearest to it, which is what the correctly rounded quotient of the
    two integers is. *)
Definition num_dec (n : Z) (digits : Z) : number :=
  match n with
  | Z0 => num_zero
  | Zpos p => num_div (S754_finite false p 0) (num_of_Z (10 ^ digits))
  | Zneg p => num_div (S754_finite true p 0) (num_of_Z (10 ^ digits))
  end.

(** [x || 0] on Numbers: [0], [-0] and [NaN] are falsy. *)
Definition or_zero (x : number) : number :=
  match x with
  | S754_zero _ | S754_nan => num_zero
  | _ => x
  end.

(** What [x.toFixed(2)] prints. *)
Inductive fixed_string :=
  | FixedNaN                                   (* "NaN" *)
  | FixedInfinity (negative : bool)            (* "Infinity", "-Infinity" *)
  | FixedDecimal (negative : bool) (hundredths : Z)  (* "-12.34" *)
  | FixedExponent (x : number).                (* |x| >= 1e21: [String(x)] *)

(** [x.toFixed(2)]: the integer [n] for which [n / 100 - |x|] is as close
    to zero as possible, the larger one on a tie. *)
Definition toFixed2 (x : number) : fixed_string :=
  match x with
  | S754_nan => FixedNaN
  | S754_infinity s => FixedInfinity s
  | S754_zero _ => FixedDecimal false 0
  | S754_finite s m e =>
      if (10 ^ 21 <=? (if 0 <=? e then Zpos m * 2 ^ e else Zpos m / 2 ^ (- e)))
      then FixedExponent x
      else
        FixedDecimal s
          (if 0 <=? e then Zpos m * 2 ^ e * 100
           else (2 * (Zpos m * 100) + 2 ^ (- e)) / (2 * 2 ^ (- e)))
  end.

(** [parseFloat] of such a string. *)
Definition parseFloat (s : fixed_string) : number :=
  match s with
  | FixedNaN => NaN
  | FixedInfinity s => S754_infinity s
  | FixedDecimal s n =>
      match n with
      | Zpos p => num_div (S754_finite s p 0) (num_of_Z 100)
      | _ => S754_zero s
      end
  | FixedExponent x => x
  end.

(** ** Values, events and the world *)

(** The values stored in the plain objects the code builds. *)
Inductive value :=
  | VUndefined
  | VNull
  | VBool (b : bool)
  | VString (s : string).

(** A row of a GAQL response: the fields the adapters read. A numeric field
    that is missing is [NaN]. *)
Record row := {
  campaign_id : string;
  campaign_name : string;
  campaign_status : string;
  metrics_impressions : number;
  metrics_clicks : number;
  metrics_cost_micros : number;
  metrics_conversions : number;
  metrics_average_cpc : number;
  keyword_text : string;
  keyword_match_type : string;
  criterion_status : string;
  quality_score : number
}.

(** The JSON bodies ClickUp answers with, as far as the adapter reads them. *)
Record remote_task := {
  rt_id : string;
  rt_name : string;
  rt_description : string;
  rt_status : option string;
  rt_priority : option Z;
  rt_due_date : option string;
  rt_assignees : list string;
  rt_tags : list string;
  rt_url : string
}.

Record remote_doc := {
  rd_id : string;
  rd_name : string;
  rd_content : string;
  rd_url : string
}.

Record response := {
  r_id : option string;
  r_url : option string;
  r_err : option string;
  r_tasks : option (list remote_task);
  r_docs : option (list remote_doc)
}.

(** The body of the create-task request. *)
Record payload := {
  name : string;
  description : string;
  status : string;
  priority : Z;
  due_date : option Z;
  assignees : list string;
  tags : list string
}.

Record http_request := {
  method : string;
  path : string;
  authorization : option string;
  body : option payload
}.

Inductive http_outcome :=
  | RequestThrows (msg : string)     (* [https.request] itself throws *)
  | RequestError (msg : string)      (* the ['error'] event *)
  | Response (statusCode : Z) (parsed : string + response).
                                     (* [JSON.parse(data)]: its error, or the body *)

Inductive outcome (A : Type) : Type :=
  | Ret (a : A)
  | Throw (msg : string).
Arguments Ret {A} a.
Arguments Throw {A} msg.

Inductive event :=
  | Console (level label : string) (detail : option string)
  | ListAccessibleCustomers (refresh_token : option string)
  | Query (customer_id login_customer_id : string)
          (refresh_token : option string) (gaql : string)
  | Https (req : http_request).

(** The events that reach a remote service. *)
Definition is_network (e : event) : bool :=
  match e with
  | Console _ _ _ => false
  | _ => true
  end.

Record World := {
  env : gmap string string;               (* process.env *)
  now : Z;                                (* the clock, in epoch milliseconds *)
  getFullYear : Z -> Z;                   (* local year of an instant *)
  startOfYear : Z -> Z;                   (* new Date(year, 0, 1) *)
  minusDays : Z -> Z -> Z;                (* d.setDate(d.getDate() - n) *)
  toISOString : Z -> string;              (* new Date(t).toISOString() *)
  listAccessibleCustomers : option string -> outcome (option (list string));
                                          (* resource_names, when an array *)
  customer_query : string -> string -> option string -> string -> outcome (list row);
  https_request : http_request -> http_outcome
}.

(** ** The monad of the adapters: a trace of events, and return or throw *)

Definition M (A : Type) : Type := list event -> outcome A * list event.

#[export] Instance M_ret : MRet M := fun A a t => (Ret a, t).

#[export] Instance M_bind : MBind M := fun A B f m t =>
  match m t with
  | (Ret a, t') => f a t'
  | (Throw e, t') => (Throw e, t')
  end.

Definition throw {A} (msg : string) : M A := fun t => (Throw msg, t).

Definition try_catch {A} (body : M A) (handler : string -> M A) : M A :=
  fun t =>
    match body t with
    | (Ret a, t') => (Ret a, t')
    | (Throw e, t') => handler e t'
    end.

Definition emit (e : event) : M unit := fun t => (Ret tt, t ++ [e]).

Definition lift {A} (o : outcome A) : M A := fun t => (o, t).

Definition console_log (label : string) (detail : option string) : M unit :=
  emit (Console "log" label detail).
Definition console_error (label : string) (detail : option string) : M unit :=
  emit (Console "error" label detail).

(** ** The calendar in UTC *)

Definition msPerDay : Z := 24 * 60 * 60 * 1000.

(** The proleptic Gregorian date (year, month, day) of a day number (days
    since 1970-01-01). *)
Definition civil_of_days (days : Z) : Z * Z * Z :=
  let z := days + 719468 in
  let era := z / 146097 in
  let doe := z - era * 146097 in
  let yoe := (doe - doe / 1460 + doe / 36524 - doe / 146096) / 365 in
  let doy := doe - (365 * yoe + yoe / 4 - yoe / 100) in
  let mp := (5 * doy + 2) / 153 in
  let d := doy - (153 * mp + 2) / 5 + 1 in
  let m := if mp <? 10 then mp + 3 else mp - 9 in
  (yoe + era * 400 + (if m <=? 2 then 1 else 0), m, d).

Definition year_of_days (days : Z) : Z := fst (fst (civil_of_days days)).

(** The day number of January 1st of a year. *)
Definition days_of_year_start (y : Z) : Z :=
  let y' := y - 1 in
  let era := y' / 400 in
  let yoe := y' - era * 400 in
  era * 146097 + (yoe * 365 + yoe / 4 - yoe / 100 + 306) - 719468.

Definition utc_getFullYear (t : Z) : Z := year_of_days (t / msPerDay).
Definition utc_startOfYear (y : Z) : Z := days_of_year_start y * msPerDay.
Definition utc_minusDays (t n : Z) : Z := t - n * msPerDay.

(** [s.padStart(width, '0')] *)
Definition padStart0 (width : nat) (s : string) : string :=
  String.concat "" (repeat "0" (width - String.length s)) +:+ s.

(** [toISOString], for the years 0000 to 9999. *)
Definition utc_toISOString (t : Z) : string :=
  let '(y, m, d) := civil_of_days (t / msPerDay) in
  let ms := t mod msPerDay in
  padStart0 4 (pretty y) +:+ "-" +:+ padStart0 2 (pretty m) +:+ "-" +:+
  padStart0 2 (pretty d) +:+ "T" +:+ padStart0 2 (pretty (ms / 3600000)) +:+ ":" +:+
  padStart0 2 (pretty (ms / 60000 mod 60)) +:+ ":" +:+
  padStart0 2 (pretty (ms / 1000 mod 60)) +:+ "." +:+
  padStart0 3 (pretty (ms mod 1000)) +:+ "Z".

(** ** lib/googleAds.js: the report analyzer *)

(** [new Date(lead.date)]: its time value, [None] for an invalid date. *)
Record lead := { lead_date : option Z }.

(** An entry of [searchTerms]: a string, or an object with a [term] field. *)
Inductive term_entry :=
  | TermString (s : string)
  | TermObject (term : option string).

Record campaign := { ctr : number; conversionRate : number }.

(** The report: each list may be absent. *)
Record report := {
  leads : option (list lead);
  searchTerms : option (list term_entry);
  campaigns : option (list campaign)
}.

Record dataPoints := {
  totalLeads : nat;
  totalSearchTerms : nat;
  totalCampaigns : nat
}.

Record analysis := {
  recommendations : list string;
  analysisDate : string;
  analysis_dataPoints : dataPoints
}.

Definition relevantTerms : list string :=
  ["build"; "renovation"; "extension"; "construction"; "remodel";
   "home improvement"].

(** [new Date(lead.date) >= threeDaysAgo] *)
Definition is_recent (threeDaysAgo : Z) (l : lead) : bool :=
  match lead_date l with
  | Some t => threeDaysAgo <=? t
  | None => false
  end.

Definition is_unrelated (termObj : term_entry) : bool :=
  let termStr := match termObj with
                 | TermString s => Some s
                 | TermObject t => t
                 end in
  let termLower := toLowerCase (default "" termStr) in
  negb (existsb (fun relevant => includes termLower relevant) relevantTerms).

Definition is_low_performing (c : campaign) : bool :=
  num_lt (ctr c) (num_dec 2 2) || num_lt (conversionRate c) (num_dec 1 2).

(** The first block: missing leads. *)
Definition lead_recommendation (threeDaysAgo : Z) (r : report) : list string :=
  match leads r with
  | Some ((_ :: _) as ls) =>
      let recentLeads := List.filter (is_recent threeDaysAgo) ls in
      if (length recentLeads =? 0)%nat
      then ["No leads generated in the last 3 days - review campaign performance"]
      else []
  | _ => ["No lead data found - check data export"]
  end.

(** The second block: unrelated search terms. *)
Definition term_recommendation (r : report) : list string :=
  match searchTerms r with
  | Some ((_ :: _) as ts) =>
      let unrelatedTerms := List.filter is_unrelated ts in
      if (0 <? length unrelatedTerms)%nat
      then ["Found " +:+ pretty (length unrelatedTerms) +:+
            " potentially unrelated search terms - review for negative keywords"]
      else []
  | _ => []
  end.

(** The third block: low-performing campaigns. *)
Definition campaign_recommendation (r : report) : list string :=
  match campaigns r with
  | Some ((_ :: _) as cs) =>
      let lowPerformingCampaigns := List.filter is_low_performing cs in
      if (0 <? length lowPerformingCampaigns)%nat
      then ["Suggest new creative for low-performing campaigns"]
      else []
  | _ => []
  end.

Definition default_recommendations : list string :=
  ["Review search terms"; "Check ad copy performance"].

Definition length_or_zero {A} (l : option (list A)) : nat :=
  match l with Some l => length l | None => 0%nat end.

(** [threeDaysAgo.setDate(threeDaysAgo.getDate() - 3)] on [new Date()] *)
Definition threeDaysAgo (w : World) : Z := minusDays w (now w) 3.

Definition analyzeGoogleAdsReport (w : World) (reportData : report) : analysis :=
  let recommendations := [] in
  let threeDaysAgo := threeDaysAgo w in
  let recommendations := recommendations ++ lead_recommendation threeDaysAgo reportData in
  let recommendations := recommendations ++ term_recommendation reportData in
  let recommendations := recommendations ++ campaign_recommendation reportData in
  let recommendations :=
    if (length recommendations =? 0)%nat
    then recommendations ++ default_recommendations
    else recommendations in
  {| recommendations := recommendations;
     analysisDate := toISOString w (now w);
     analysis_dataPoints :=
       {| totalLeads := length_or_zero (leads reportData);
          totalSearchTerms := length_or_zero (searchTerms reportData);
          totalCampaigns := length_or_zero (campaigns reportData) |} |}.

(** ** lib/googleAds.js: accounts *)

(** [a.indexOf(x)], [None] for -1. *)
Fixpoint indexOf (l : list string) (x : string) : option nat :=
  match l with
  | [] => None
  | y :: l' => if String.eqb y x then Some 0%nat else S <$> indexOf l' x
  end.

Definition value_of_option (o : option string) : value :=
  match o with Some s => VString s | None => VUndefined end.

Definition make_account (resourceNames : list string) (resourceName : string)
  : gmap string value :=
  let customerId := split_slash_1 resourceName in
  <["customerId" := value_of_option customerId]>
  (<["resourceName" := VString resourceName]>
  (<["isManager" := VBool (bool_decide (indexOf resourceNames resourceName = Some 0%nat))]>
   ∅)).

Definition listAccessibleAccounts (w : World) : M (list (gmap string value)) :=
  try_catch
    (let refreshToken := env w !! "GOOGLE_ADS_REFRESH_TOKEN" in
     emit (ListAccessibleCustomers refreshToken);;
     customers ← lift (listAccessibleCustomers w refreshToken);
     let resourceNames := default [] customers in
     let accounts := map (make_account resourceNames) resourceNames in
     mret accounts)
    (fun error =>
       console_error "Error listing accessible accounts:" (Some error);;
       mret []).

(** [acc.name && acc.name.toLowerCase() === name.toLowerCase()] *)
Definition name_matches (name : string) (acc : gmap string value) : outcome bool :=
  match acc !! "name" with
  | None | Some VUndefined | Some VNull | Some (VBool false)
  | Some (VString EmptyString) => Ret false
  | Some (VString n) => Ret (String.eqb (toLowerCase n) (toLowerCase name))
  | Some (VBool true) => Throw "acc.name.toLowerCase is not a function"
  end.

(** [accounts.find(p)] for a predicate that may throw. *)
Fixpoint find_account (p : gmap string value -> outcome bool)
  (accounts : list (gmap string value)) : outcome (option (gmap string value)) :=
  match accounts with
  | [] => Ret None
  | acc :: rest =>
      match p acc with
      | Throw e => Throw e
      | Ret true => Ret (Some acc)
      | Ret false => find_account p rest
      end
  end.

Definition lookupAccountIdByName (w : World) (name : string) : M value :=
  accounts ← listAccessibleAccounts w;
  found ← lift (find_account (name_matches name) accounts);
  mret (match found with
        | Some acc => default VUndefined (acc !! "customerId")
        | None => VNull
        end).

(** ** lib/googleAds.js: account info, ad spend, keyword performance *)

(** The lines of a template literal, joined by line feeds. *)
Fixpoint lines (ls : list string) : string :=
  match ls with
  | [] => ""
  | [l] => l
  | l :: ls' => l +:+ String "010" (lines ls')
  end.

Definition account_info_query : string :=
  lines [""; "      SELECT "; "        customer.id,";
         "        customer.descriptive_name,"; "        customer.currency_code,";
         "        customer.time_zone,"; "        customer.manager,";
         "        customer.test_account"; "      FROM customer";
         "      LIMIT 1"; "    "].

Definition ad_spend_query (days : Z) : string :=
  lines [""; "      SELECT "; "        campaign.id,"; "        campaign.name,";
         "        campaign.status,"; "        metrics.impressions,";
         "        metrics.clicks,"; "        metrics.cost_micros,";
         "        metrics.conversions,"; "        metrics.average_cpc";
         "      FROM campaign";
         "      WHERE segments.date DURING LAST_" +:+ pretty days +:+ "_DAYS";
         "      ORDER BY metrics.cost_micros DESC"; "    "].

Definition keyword_query (days : Z) : string :=
  lines [""; "      SELECT "; "        ad_group_criterion.keyword.text,";
         "        ad_group_criterion.keyword.match_type,";
         "        ad_group_criterion.status,"; "        metrics.impressions,";
         "        metrics.clicks,"; "        metrics.cost_micros,";
         "        metrics.conversions,"; "        metrics.average_cpc,";
         "        ad_group_criterion.quality_info.quality_score";
         "      FROM keyword_view";
         "      WHERE segments.date DURING LAST_" +:+ pretty days +:+ "_DAYS";
         "      ORDER BY metrics.cost_micros DESC"; "      LIMIT 50"; "    "].

(** The statements that [getAccountInfo], [getAdSpend] and
    [getKeywordPerformance] each repeat at the head of their [try] block:
    read the refresh token and the management-account identifier, throw when
    the latter is missing or empty, build the customer and run
    [customer.query(query)]. Building the client and the customer sends
    nothing. *)
Definition query_as_mcc (w : World) (customerId query : string) : M (list row) :=
  let refreshToken := env w !! "GOOGLE_ADS_REFRESH_TOKEN" in
  let mccCustomerId := remove_dashes <$> env w !! "GOOGLE_ADS_LOGIN_CUSTOMER_ID" in
  match mccCustomerId with
  | Some (String _ _ as mcc) =>
      let customer_id := remove_dashes customerId in
      emit (Query customer_id mcc refreshToken query);;
      lift (customer_query w customer_id mcc refreshToken query)
  | _ => throw "MCC Customer ID not configured"
  end.

Definition getAccountInfo (w : World) (customerId : string) : M (option row) :=
  try_catch
    (response ← query_as_mcc w customerId account_info_query;
     mret (head response))
    (fun error =>
       console_error "Error getting account info:" (Some error);;
       mret None).

Record campaign_spend := {
  c_id : string;
  c_name : string;
  c_status : string;
  c_impressions : number;
  c_clicks : number;
  c_cost : number;
  c_conversions : number;
  c_averageCpc : number
}.

Record ad_spend := {
  customerId : string;
  period : string;
  totalSpend : number;
  totalImpressions : number;
  totalClicks : number;
  totalConversions : number;
  averageCpc : number;
  spend_campaigns : list campaign_spend
}.

(** The variables the [forEach] loop of [getAdSpend] updates. *)
Record spend_totals := {
  acc_totalSpend : number;
  acc_totalImpressions : number;
  acc_totalClicks : number;
  acc_totalConversions : number;
  acc_campaigns : list campaign_spend
}.

Definition micros_to_units (x : number) : number := num_div x (num_of_Z 1000000).

Definition spend_step (acc : spend_totals) (r : row) : spend_totals :=
  let cost := micros_to_units (metrics_cost_micros r) in
  {| acc_totalSpend := num_add (acc_totalSpend acc) cost;
     acc_totalImpressions :=
       num_add (acc_totalImpressions acc) (or_zero (metrics_impressions r));
     acc_totalClicks := num_add (acc_totalClicks acc) (or_zero (metrics_clicks r));
     acc_totalConversions :=
       num_add (acc_totalConversions acc) (or_zero (metrics_conversions r));
     acc_campaigns :=
       acc_campaigns acc ++
       [{| c_id := campaign_id r;
           c_name := campaign_name r;
           c_status := campaign_status r;
           c_impressions := or_zero (metrics_impressions r);
           c_clicks := or_zero (metrics_clicks r);
           c_cost := cost;
           c_conversions := or_zero (metrics_conversions r);
           c_averageCpc := or_zero (micros_to_units (metrics_average_cpc r)) |}] |}.

Definition spend_init : spend_totals :=
  {| acc_totalSpend := num_zero; acc_totalImpressions := num_zero;
     acc_totalClicks := num_zero; acc_totalConversions := num_zero;
     acc_campaigns := [] |}.

(** The object returned from the [try] block. *)
Definition spend_summary (customerId : string) (days : Z) (response : list row)
  : ad_spend :=
  let acc := fold_left spend_step response spend_init in
  {| customerId := customerId;
     period := pretty days +:+ " days";
     totalSpend := parseFloat (toFixed2 (acc_totalSpend acc));
     totalImpressions := acc_totalImpressions acc;
     totalClicks := acc_totalClicks acc;
     totalConversions := acc_totalConversions acc;
     averageCpc :=
       if num_lt num_zero (acc_totalClicks acc)
       then parseFloat (toFixed2 (num_div (acc_totalSpend acc) (acc_totalClicks acc)))
       else num_zero;
     spend_campaigns := acc_campaigns acc |}.

(** The object returned from the [catch] block. *)
Definition spend_fallback (customerId : string) (days : Z) : ad_spend :=
  {| customerId := customerId;
     period := pretty days +:+ " days";
     totalSpend := num_dec 125050 2;
     totalImpressions := num_of_Z 45000;
     totalClicks := num_of_Z 1200;
     totalConversions := num_of_Z 45;
     averageCpc := num_dec 104 2;
     spend_campaigns :=
       [{| c_id := "123456789"; c_name := "JRA Construction - Search";
           c_status := "ENABLED"; c_impressions := num_of_Z 25000;
           c_clicks := num_of_Z 650; c_cost := num_dec 67525 2;
           c_conversions := num_of_Z 25; c_averageCpc := num_dec 104 2 |};
        {| c_id := "123456790"; c_name := "JRA Construction - Display";
           c_status := "ENABLED"; c_impressions := num_of_Z 20000;
           c_clicks := num_of_Z 550; c_cost := num_dec 57525 2;
           c_conversions := num_of_Z 20; c_averageCpc := num_dec 105 2 |}] |}.

Definition getAdSpend (w : World) (customerId : string) (days : Z) : M ad_spend :=
  try_catch
    (response ← query_as_mcc w customerId (ad_spend_query days);
     mret (spend_summary customerId days response))
    (fun error =>
       console_error "Error getting ad spend:" (Some error);;
       mret (spend_fallback customerId days)).

Record keyword_performance := {
  k_keyword : string;
  k_matchType : string;
  k_status : string;
  k_impressions : number;
  k_clicks : number;
  k_cost : number;
  k_conversions : number;
  k_averageCpc : number;
  k_qualityScore : number
}.

Definition keyword_of_row (r : row) : keyword_performance :=
  {| k_keyword := keyword_text r;
     k_matchType := keyword_match_type r;
     k_status := criterion_status r;
     k_impressions := or_zero (metrics_impressions r);
     k_clicks := or_zero (metrics_clicks r);
     k_cost := parseFloat (toFixed2 (micros_to_units (metrics_cost_micros r)));
     k_conversions := or_zero (metrics_conversions r);
     k_averageCpc := parseFloat (toFixed2 (micros_to_units (metrics_average_cpc r)));
     k_qualityScore := or_zero (quality_score r) |}.

Definition keyword_fallback : list keyword_performance :=
  [{| k_keyword := "construction services"; k_matchType := "BROAD";
      k_status := "ENABLED"; k_impressions := num_of_Z 5000;
      k_clicks := num_of_Z 150; k_cost := num_dec 22550 2;
      k_conversions := num_of_Z 8; k_averageCpc := num_dec 150 2;
      k_qualityScore := num_of_Z 7 |};
   {| k_keyword := "remodeling contractor"; k_matchType := "PHRASE";
      k_status := "ENABLED"; k_impressions := num_of_Z 3500;
      k_clicks := num_of_Z 120; k_cost := num_dec 18025 2;
      k_conversions := num_of_Z 6; k_averageCpc := num_dec 150 2;
      k_qualityScore := num_of_Z 8 |}].

Definition getKeywordPerformance (w : World) (customerId : string) (days : Z)
  : M (list keyword_performance) :=
  try_catch
    (response ← query_as_mcc w customerId (keyword_query days);
     mret (map keyword_of_row response))
    (fun error =>
       console_error "Error getting keyword performance:" (Some error);;
       mret keyword_fallback).

(** ** lib/clickUp.js *)

Definition DEFAULT_SPACE_ID : string := "6942940".

(** [Math.ceil(days / 7)] *)
Definition ceil_div7 (days : Z) : Z := - ((- days) / 7).

(** [getISOWeek()], at module level and again, with the same body, inside
    [createTask]. *)
Definition getISOWeek (w : World) : string :=
  let now := now w in
  let start := startOfYear w (getFullYear w now) in
  let days := (now - start) / msPerDay in
  let weekNumber := ceil_div7 days in
  pretty (getFullYear w now) +:+ "-W" +:+ padStart2 (pretty weekNumber).

Record taskData := {
  title : option string;
  td_description : option string;
  listId : option string;
  spaceId : option string;
  td_tags : option (list string);
  assigneeId : option string;
  dueDate : option Z;          (* the instant the ISO string denotes *)
  td_priority : option Z
}.

Record task_result := {
  tr_success : bool;
  tr_task : option response;
  tr_taskId : option string;
  tr_taskUrl : option string;
  tr_message : option string;
  tr_error : option string;
  tr_statusCode : option Z;
  tr_response : option response
}.

(** [taskData.title.includes('{ISO Week}') ? taskData.title.replace(...) : taskData.title] *)
Definition format_title (w : World) (title : string) : string :=
  if includes title "{ISO Week}"
  then replace title "{ISO Week}" (getISOWeek w)
  else title.

Definition task_payload (w : World) (td : taskData) (title : string) : payload :=
  {| name := format_title w title;
     description := match td_description td with
                    | Some (String _ _ as d) => d
                    | _ => ""
                    end;
     status := "to do";
     priority := match td_priority td with
                 | Some 0 | None => 3
                 | Some p => p
                 end;
     due_date := dueDate td;
     assignees := match assigneeId td with
                  | Some (String _ _ as a) => [a]
                  | _ => []
                  end;
     tags := default [] (td_tags td) |}.

Definition is_2xx (statusCode : Z) : bool :=
  (200 <=? statusCode) && (statusCode <? 300).

(** [x || fallback] on strings. *)
Definition or_string (o : option string) (fallback : string) : string :=
  match o with
  | Some (String _ _ as s) => s
  | _ => fallback
  end.

Definition createTask (w : World) (td : taskData) : M task_result :=
  let clickupToken := env w !! "CLICKUP_TOKEN" in
  if negb (truthy clickupToken) then
    throw "CLICKUP_TOKEN environment variable is required"
  else
    match title td, listId td with
    | Some (String _ _ as title), Some (String _ _ as listId) =>
        let payload := task_payload w td title in
        let req := {| method := "POST";
                      path := "/api/v2/list/" +:+ listId +:+ "/task";
                      authorization := clickupToken;
                      body := Some payload |} in
        match https_request w req with
        | RequestThrows msg => throw msg
        | RequestError msg =>
            emit (Https req);; throw ("Request failed: " +:+ msg)
        | Response _ (inl parseError) =>
            emit (Https req);; throw ("Failed to parse response: " +:+ parseError)
        | Response statusCode (inr response) =>
            emit (Https req);;
            if is_2xx statusCode then
              mret {| tr_success := true;
                      tr_task := Some response;
                      tr_taskId := r_id response;
                      tr_taskUrl := r_url response;
                      tr_message := Some "Task created successfully";
                      tr_error := None;
                      tr_statusCode := None;
                      tr_response := None |}
            else
              mret {| tr_success := false;
                      tr_task := None;
                      tr_taskId := None;
                      tr_taskUrl := None;
                      tr_message := None;
                      tr_error := Some (or_string (r_err response) "Failed to create task");
                      tr_statusCode := Some statusCode;
                      tr_response := Some response |}
        end
    | _, _ => throw "Task title and listId are required"
    end.

Record auditData := {
  ad_recommendations : option (list string);
  ad_analysisDate : option string;
  ad_dataPoints : option dataPoints;
  ad_listId : option string;
  ad_assigneeId : option string
}.

Definition nl : string := String "010" "".

(** The [forEach] of [formatAuditDescription], from index [index]. *)
Fixpoint numbered (index : nat) (recs : list string) : string :=
  match recs with
  | [] => ""
  | rec :: recs' =>
      pretty (index + 1)%nat +:+ ". " +:+ rec +:+ nl +:+ numbered (S index) recs'
  end.

Definition formatAuditDescription (w : World) (a : auditData) (recs : list string)
  : string :=
  let description := "## Google Ads Audit Report" +:+ nl +:+ nl in
  let description := description +:+ "**Analysis Date:** " +:+
    or_string (ad_analysisDate a) (toISOString w (now w)) +:+ nl +:+ nl in
  let description :=
    match ad_dataPoints a with
    | Some dp =>
        description +:+ "### Data Summary" +:+ nl
        +:+ "- Total Leads: " +:+ pretty (totalLeads dp) +:+ nl
        +:+ "- Total Search Terms: " +:+ pretty (totalSearchTerms dp) +:+ nl
        +:+ "- Total Campaigns: " +:+ pretty (totalCampaigns dp) +:+ nl +:+ nl
    | None => description
    end in
  let description := description +:+ "### Recommendations" +:+ nl in
  let description := description +:+ numbered 0 recs in
  description +:+ nl +:+ "---" +:+ nl +:+
  "*Task created automatically by Contractor Scale AI Media Assistant*".

Definition createAdAuditTask (w : World) (a : auditData) : M task_result :=
  match ad_recommendations a with
  | Some ((_ :: _) as recs) =>
      let description := formatAuditDescription w a recs in
      let td := {| title := Some ("Ad Audit – Week " +:+ getISOWeek w);
                   td_description := Some description;
                   listId := ad_listId a;
                   spaceId := None;
                   td_tags := Some ["ad-audit"; "automated"; "google-ads"];
                   assigneeId := ad_assigneeId a;
                   dueDate := Some (now w + 7 * msPerDay);
                   td_priority := Some 2 |} in
      createTask w td
  | _ =>
      mret {| tr_success := false;
              tr_task := None;
              tr_taskId := None;
              tr_taskUrl := None;
              tr_message := Some "No recommendations to create task for";
              tr_error := None;
              tr_statusCode := None;
              tr_response := None |}
  end.

(** *** Search *)

Record task_summary := {
  ts_id : string;
  ts_name : string;
  ts_description : string;
  ts_status : option string;
  ts_priority : option Z;
  ts_dueDate : option string;
  ts_assignees : list string;
  ts_tags : list string;
  ts_url : string;
  ts_type : string
}.

Record doc_summary := {
  ds_id : string;
  ds_name : string;
  ds_content : string;
  ds_url : string;
  ds_type : string
}.

Definition task_summary_of (task : remote_task) : task_summary :=
  {| ts_id := rt_id task; ts_name := rt_name task;
     ts_description := rt_description task; ts_status := rt_status task;
     ts_priority := rt_priority task; ts_dueDate := rt_due_date task;
     ts_assignees := rt_assignees task; ts_tags := rt_tags task;
     ts_url := rt_url task; ts_type := "task" |}.

Definition doc_summary_of (doc : remote_doc) : doc_summary :=
  {| ds_id := rd_id doc; ds_name := rd_name doc; ds_content := rd_content doc;
     ds_url := rd_url doc; ds_type := "doc" |}.

Definition search_request (w : World) (spaceId kind query : string) (limit : Z)
  : http_request :=
  {| method := "GET";
     path := "/api/v2/space/" +:+ spaceId +:+ "/" +:+ kind +:+ "?search=" +:+
             encodeURIComponent query +:+ "&limit=" +:+ pretty limit;
     authorization := env w !! "CLICKUP_TOKEN";
     body := None |}.

(** The promise resolves with the list, or with [[]] on any failure of the
    call; it rejects only when building the request throws. *)
Definition searchTasks (w : World) (spaceId query : string) (limit : Z)
  : M (list task_summary) :=
  let req := search_request w spaceId "task" query limit in
  match https_request w req with
  | RequestThrows msg => throw msg
  | RequestError _ => emit (Https req);; mret []
  | Response _ (inl _) => emit (Https req);; mret []
  | Response statusCode (inr response) =>
      emit (Https req);;
      if is_2xx statusCode
      then mret (map task_summary_of (default [] (r_tasks response)))
      else mret []
  end.

Definition searchDocs (w : World) (spaceId query : string) (limit : Z)
  : M (list doc_summary) :=
  let req := search_request w spaceId "doc" query limit in
  match https_request w req with
  | RequestThrows msg => throw msg
  | RequestError _ => emit (Https req);; mret []
  | Response _ (inl _) => emit (Https req);; mret []
  | Response statusCode (inr response) =>
      emit (Https req);;
      if is_2xx statusCode
      then mret (map doc_summary_of (default [] (r_docs response)))
      else mret []
  end.

Record searchOptions := {
  so_query : option string;
  so_spaceId : option string;
  so_type : option string;
  so_limit : option Z
}.

Record search_results := {
  res_tasks : list task_summary;
  res_docs : list doc_summary;
  totalResults : nat;
  res_query : string;
  res_spaceId : string
}.

Record search_result := {
  sr_success : bool;
  sr_error : option string;
  sr_results : search_results
}.

Definition set_tasks (taskResults : list task_summary) (r : search_results) :=
  {| res_tasks := taskResults; res_docs := res_docs r;
     totalResults := totalResults r; res_query := res_query r;
     res_spaceId := res_spaceId r |}.

Definition set_docs (docResults : list doc_summary) (r : search_results) :=
  {| res_tasks := res_tasks r; res_docs := docResults;
     totalResults := totalResults r; res_query := res_query r;
     res_spaceId := res_spaceId r |}.

Definition set_totalResults (r : search_results) :=
  {| res_tasks := res_tasks r; res_docs := res_docs r;
     totalResults := (length (res_tasks r) + length (res_docs r))%nat;
     res_query := res_query r; res_spaceId := res_spaceId r |}.

Definition search_failure (error : string) (results : search_results) : search_result :=
  {| sr_success := false; sr_error := Some error; sr_results := results |}.

(** The [results] object is updated in place, so the [catch] block returns
    it as the statements before the throw left it: each statement of the
    [try] block is guarded with the [results] it started from. *)
Definition searchClickUp (w : World) (so : searchOptions) : M search_result :=
  let clickupToken := env w !! "CLICKUP_TOKEN" in
  if negb (truthy clickupToken) then
    throw "CLICKUP_TOKEN environment variable is required"
  else
    let spaceId := default DEFAULT_SPACE_ID (so_spaceId so) in
    let type := default "all" (so_type so) in
    let limit := default 20 (so_limit so) in
    match so_query so with
    | Some (String _ _ as query) =>
        let results := {| res_tasks := []; res_docs := []; totalResults := 0;
                          res_query := query; res_spaceId := spaceId |} in
        try_catch
          (results ←
             (if String.eqb type "all" || String.eqb type "tasks"
              then taskResults ← searchTasks w spaceId query limit;
                   mret (set_tasks taskResults results)
              else mret results);
           try_catch
             (results ←
                (if String.eqb type "all" || String.eqb type "docs"
                 then docResults ← searchDocs w spaceId query limit;
                      mret (set_docs docResults results)
                 else mret results);
              let results := set_totalResults results in
              mret {| sr_success := true; sr_error := None; sr_results := results |})
             (fun error => mret (search_failure error results)))
          (fun error => mret (search_failure error results))
    | _ => throw "Search query is required"
    end.

(** ** typingmind-mcp-server.js *)

Record tool := {
  tool_name : string;
  tool_description : string;
  tool_properties : list string;
  tool_required : list string
}.

(** [this.tools] *)
Definition tools : list tool :=
  [{| tool_name := "list_google_ads_accounts";
      tool_description := "List all accessible Google Ads accounts (MCC and client accounts)";
      tool_properties := []; tool_required := [] |};
   {| tool_name := "get_account_info";
      tool_description := "Get detailed information about a specific Google Ads account";
      tool_properties := ["customerId"]; tool_required := ["customerId"] |};
   {| tool_name := "get_ad_spend";
      tool_description := "Get ad spend data for a specific account over a time period";
      tool_properties := ["customerId"; "days"]; tool_required := ["customerId"] |};
   {| tool_name := "get_keyword_performance";
      tool_description := "Get keyword performance data for a specific account";
      tool_properties := ["customerId"; "days"]; tool_required := ["customerId"] |}].

Record tool_args := {
  arg_customerId : option string;
  arg_days : option Z
}.

Inductive tool_data :=
  | DataAccounts (accounts : list (gmap string value))
  | DataAccountInfo (accountInfo : option row)
  | DataSpend (spendData : ad_spend)
  | DataKeywords (keywordData : list keyword_performance).

Record envelope := {
  success : bool;
  data : option tool_data;
  message : option string;
  error : option string
}.

Definition success_envelope (d : tool_data) (msg : string) : envelope :=
  {| success := true; data := Some d; message := Some msg; error := None |}.

Definition handleToolCall (w : World) (toolName : string) (args : tool_args)
  : M envelope :=
  console_log ("MCP Tool Call: " +:+ toolName) None;;
  try_catch
    (if String.eqb toolName "list_google_ads_accounts" then
       accounts ← listAccessibleAccounts w;
       mret (success_envelope (DataAccounts accounts)
               ("Found " +:+ pretty (length accounts) +:+ " accessible accounts"))
     else if String.eqb toolName "get_account_info" then
       match arg_customerId args with
       | Some (String _ _ as customerId) =>
           accountInfo ← getAccountInfo w customerId;
           mret (success_envelope (DataAccountInfo accountInfo)
                   ("Account info retrieved for " +:+ customerId))
       | _ => throw "customerId is required"
       end
     else if String.eqb toolName "get_ad_spend" then
       let days := default 7 (arg_days args) in
       match arg_customerId args with
       | Some (String _ _ as spendCustomerId) =>
           spendData ← getAdSpend w spendCustomerId days;
           mret (success_envelope (DataSpend spendData)
                   ("Ad spend data retrieved for " +:+ spendCustomerId +:+ " (" +:+
                    pretty days +:+ " days)"))
       | _ => throw "customerId is required"
       end
     else if String.eqb toolName "get_keyword_performance" then
       let keywordDays := default 7 (arg_days args) in
       match arg_customerId args with
       | Some (String _ _ as keywordCustomerId) =>
           keywordData ← getKeywordPerformance w keywordCustomerId keywordDays;
           mret (success_envelope (DataKeywords keywordData)
                   ("Keyword performance data retrieved for " +:+ keywordCustomerId +:+
                    " (" +:+ pretty keywordDays +:+ " days)"))
       | _ => throw "customerId is required"
       end
     else throw ("Unknown tool: " +:+ toolName))
    (fun error =>
       console_error "MCP Tool Error:" (Some error);;
       mret {| success := false; data := None; message := None;
               error := Some error |}).

(** ** Worlds and inputs to run the code on *)

(** Sum of a list of Numbers, left to right from [0] as the loops do. *)
Definition sum_numbers (l : list number) : number := fold_left num_add l num_zero.

(** The events a run adds to the trace it starts from. *)
Definition added_events {A} (m : M A) (t : list event) : list event :=
  drop (length t) (snd (m t)).

(** The first occurrence of [pat] in [s] is between [before] and [after]. *)
Definition first_occurrence (pat s before after : string) : Prop :=
  s = before +:+ pat +:+ after /\
  forall before' after', s = before' +:+ pat +:+ after' ->
    (String.length before <= String.length before')%nat.

(** A process whose local time is UTC. *)
Definition in_utc (w : World) : Prop :=
  getFullYear w = utc_getFullYear /\ startOfYear w = utc_startOfYear.

(** A process in UTC with no connectivity: every remote call fails. *)
Definition offline_world (env : gmap string string) (now : Z) : World :=
  {| env := env;
     now := now;
     getFullYear := utc_getFullYear;
     startOfYear := utc_startOfYear;
     minusDays := utc_minusDays;
     toISOString := utc_toISOString;
     listAccessibleCustomers := fun _ => Throw "getaddrinfo ENOTFOUND";
     customer_query := fun _ _ _ _ => Throw "getaddrinfo ENOTFOUND";
     https_request := fun _ => RequestError "getaddrinfo ENOTFOUND" |}.

(** 2025-01-01T12:00:00.000Z and 2025-03-05T09:30:00.000Z *)
Definition new_year_noon : Z := 1735732800000.
Definition march_fifth : Z := 1741167000000.

Definition new_year_world : World := offline_world ∅ new_year_noon.

Definition unconfigured_world : World := offline_world ∅ march_fifth.

Definition sample_row (cost_micros clicks : Z) : row :=
  {| campaign_id := "1"; campaign_name := "Search"; campaign_status := "ENABLED";
     metrics_impressions := num_of_Z 100;
     metrics_clicks := num_of_Z clicks;
     metrics_cost_micros := num_of_Z cost_micros;
     metrics_conversions := num_of_Z 1;
     metrics_average_cpc := NaN;
     keyword_text := ""; keyword_match_type := ""; criterion_status := "";
     quality_score := NaN |}.

(** A configured process whose one campaign cost one unit for three clicks. *)
Definition thirds_world : World :=
  {| env := {[ "GOOGLE_ADS_LOGIN_CUSTOMER_ID" := "111-222-3333" ]};
     now := march_fifth;
     getFullYear := utc_getFullYear;
     startOfYear := utc_startOfYear;
     minusDays := utc_minusDays;
     toISOString := utc_toISOString;
     listAccessibleCustomers := fun _ => Ret (Some ["customers/1112223333"]);
     customer_query := fun _ _ _ _ => Ret [sample_row 1000000 3];
     https_request := fun _ => RequestError "getaddrinfo ENOTFOUND" |}.

Definition sample_remote_task : remote_task :=
  {| rt_id := "t1"; rt_name := "Audit"; rt_description := "";
     rt_status := Some "to do"; rt_priority := None; rt_due_date := None;
     rt_assignees := []; rt_tags := []; rt_url := "https://app.clickup.com/t/t1" |}.

(** A process with a ClickUp token, whose every request is answered 200
    with one task. *)
Definition clickup_world : World :=
  {| env := {[ "CLICKUP_TOKEN" := "pk_1" ]};
     now := march_fifth;
     getFullYear := utc_getFullYear;
     startOfYear := utc_startOfYear;
     minusDays := utc_minusDays;
     toISOString := utc_toISOString;
     listAccessibleCustomers := fun _ => Throw "getaddrinfo ENOTFOUND";
     customer_query := fun _ _ _ _ => Throw "getaddrinfo ENOTFOUND";
     https_request := fun _ =>
       Response 200 (inr {| r_id := Some "t1"; r_url := Some "https://app.clickup.com/t/t1";
                            r_err := None; r_tasks := Some [sample_remote_task];
                            r_docs := None |}) |}.

Definition healthy_report : report :=
  {| leads := Some [{| lead_date := Some (march_fifth - msPerDay) |}];
     searchTerms := Some [TermString "Kitchen Renovation cost"];
     campaigns := Some [{| ctr := num_dec 5 2; conversionRate := num_dec 3 2 |}] |}.

Definition slow_report : report :=
  {| leads := None;
     searchTerms := Some [TermObject (Some "cheap flights")];
     campaigns := Some [{| ctr := num_dec 5 2; conversionRate := NaN |};
                        {| ctr := num_dec 196 4; conversionRate := NaN |}] |}.

Definition tasks_search : searchOptions :=
  {| so_query := Some "ad audit"; so_spaceId := None; so_type := Some "tasks";
     so_limit := None |}.

(** What [clickup_world] answers to [tasks_search]. *)
Definition tasks_search_result : search_result :=
  {| sr_success := true; sr_error := None;
     sr_results := {| res_tasks := [task_summary_of sample_remote_task];
                      res_docs := []; totalResults := 1;
                      res_query := "ad audit"; res_spaceId := "6942940" |} |}.

Definition empty_audit : auditData :=
  {| ad_recommendations := Some []; ad_analysisDate := None;
     ad_dataPoints := None; ad_listId := Some "901"; ad_assigneeId := None |}.

Definition two_token_task : taskData :=
  {| title := Some "Audit {ISO Week} vs {ISO Week}";
     td_description := None; listId := Some "901"; spaceId := None;
     td_tags := None; assigneeId := None; dueDate := None; td_priority := None |}.

(** ** lib/clickUp.js: lists and task context *)

(** What a request answers when its body is read as [B]. *)
Inductive http_reply (B : Type) : Type :=
  | ReplyThrows (msg : string)       (* [https.request] itself throws *)
  | ReplyError (msg : string)        (* the ['error'] event *)
  | Reply (statusCode : Z) (parsed : string + B).
                                     (* [JSON.parse(data)]: its error, or the body *)
Arguments ReplyThrows {B} msg.
Arguments ReplyError {B} msg.
Arguments Reply {B} statusCode parsed.

Record remote_list := { rl_id : string; rl_name : string }.

Record lists_body := {
  lb_lists : option (list remote_list);
  lb_err : option string
}.

(** The body of [GET /task/{id}]; [tb_status] is [None] when the body has no
    [status] object, [Some s] when it has one whose [status] field is [s]. *)
Record task_body := {
  tb_name : option string;
  tb_description : option string;
  tb_status : option (option string);
  tb_priority : option Z;
  tb_assignees : list string;
  tb_tags : list string;
  tb_due_date : option string;
  tb_date_created : option string;
  tb_date_updated : option string;
  tb_err : option string
}.

(** The two read endpoints of the tracker. *)
Record Workspace := {
  space_lists : http_request -> http_reply lists_body;
  task_details : http_request -> http_reply task_body
}.

Record lists_result := {
  lr_success : bool;
  lr_lists : list remote_list;
  lr_error : option string
}.

Definition getLists (w : World) (ws : Workspace) (spaceId : option string)
  : M lists_result :=
  let spaceId := default DEFAULT_SPACE_ID spaceId in
  let clickupToken := env w !! "CLICKUP_TOKEN" in
  if negb (truthy clickupToken) then
    throw "CLICKUP_TOKEN environment variable is required"
  else
    let req := {| method := "GET";
                  path := "/api/v2/space/" +:+ spaceId +:+ "/list";
                  authorization := clickupToken;
                  body := None |} in
    match space_lists ws req with
    | ReplyThrows msg => throw msg
    | ReplyError msg => emit (Https req);; throw ("Request failed: " +:+ msg)
    | Reply _ (inl parseError) =>
        emit (Https req);; throw ("Failed to parse response: " +:+ parseError)
    | Reply statusCode (inr response) =>
        emit (Https req);;
        if is_2xx statusCode then
          mret {| lr_success := true;
                  lr_lists := default [] (lb_lists response);
                  lr_error := None |}
        else
          mret {| lr_success := false;
                  lr_lists := [];
                  lr_error := Some (or_string (lb_err response) "Failed to fetch lists") |}
    end.

Record task_context := {
  ctx_title : option string;
  ctx_description : option string;
  ctx_status : option string;
  ctx_priority : option Z;
  ctx_assignees : list string;
  ctx_tags : list string;
  ctx_dueDate : option string;
  ctx_createdAt : option string;
  ctx_updatedAt : option string
}.

Record context_result := {
  cr_success : bool;
  cr_task : option task_body;
  cr_context : option task_context;
  cr_error : option string;
  cr_statusCode : option Z
}.

(** The message of the [TypeError] of [response.status.status] when
    [response.status] is [undefined] (V8's wording). *)
Definition status_type_error : string :=
  "Cannot read properties of undefined (reading 'status')".

Definition getTaskContext (w : World) (ws : Workspace) (taskId : string)
  : M context_result :=
  let clickupToken := env w !! "CLICKUP_TOKEN" in
  if negb (truthy clickupToken) then
    throw "CLICKUP_TOKEN environment variable is required"
  else
    let req := {| method := "GET";
                  path := "/api/v2/task/" +:+ taskId;
                  authorization := clickupToken;
                  body := None |} in
    match task_details ws req with
    | ReplyThrows msg => throw msg
    | ReplyError msg => emit (Https req);; throw ("Request failed: " +:+ msg)
    | Reply _ (inl parseError) =>
        emit (Https req);; throw ("Failed to parse response: " +:+ parseError)
    | Reply statusCode (inr response) =>
        emit (Https req);;
        if is_2xx statusCode then
          match tb_status response with
          | Some status =>
              mret {| cr_success := true;
                      cr_task := Some response;
                      cr_context :=
                        Some {| ctx_title := tb_name response;
                                ctx_description := tb_description response;
                                ctx_status := status;
                                ctx_priority := tb_priority response;
                                ctx_assignees := tb_assignees response;
                                ctx_tags := tb_tags response;
                                ctx_dueDate := tb_due_date response;
                                ctx_createdAt := tb_date_created response;
                                ctx_updatedAt := tb_date_updated response |};
                      cr_error := None;
                      cr_statusCode := None |}
          | None => throw ("Failed to parse response: " +:+ status_type_error)
          end
        else
          mret {| cr_success := false;
                  cr_task := None;
                  cr_context := None;
                  cr_error := Some (or_string (tb_err response) "Failed to fetch task");
                  cr_statusCode := Some statusCode |}
    end.

(** ** lib/auth.js *)

(** [s.split(sep)] for a one-character separator. *)
Fixpoint split_on (sep : ascii) (s : string) : list string :=
  match s with
  | EmptyString => [EmptyString]
  | String c s' =>
      if Ascii.eqb c sep then EmptyString :: split_on sep s'
      else
        match split_on sep s' with
        | x :: xs => String c x :: xs
        | [] => [String c EmptyString]
        end
  end.

(** What the middleware does with the request: call [next()], or answer
    with a status and an error. *)
Inductive middleware_result :=
  | Next
  | Rejected (status : Z) (error : string).

(** [authMiddleware(authToken)(req, res, next)], on the [authorization]
    header of the request. *)
Definition authMiddleware (authToken : option string) (authHeader : option string)
  : middleware_result :=
  match authHeader with
  | Some (String _ _ as authHeader) =>
      let parts := split_on " " authHeader in
      let type := parts !! 0%nat in
      let token := parts !! 1%nat in
      if negb (bool_decide (type = Some "Bearer")) then
        Rejected 401 "Authorization type must be Bearer"
      else if negb (bool_decide (token = authToken)) then
        Rejected 401 "Invalid authentication token"
      else Next
  | _ => Rejected 401 "Authorization header is required"
  end.

Record token_response := {
  access_token : option string;
  oauth_error : option string;
  error_description : option string
}.

(** The token endpoint of the OAuth provider, on the form fields posted. *)
Record OAuth := {
  token_endpoint : list (string * string) -> http_reply token_response
}.

(** A possibly [undefined] value inside a template literal. *)
Definition template (o : option string) : string := default "undefined" o.

Definition refreshAccessToken (o : OAuth) (refreshToken clientId clientSecret : string)
  : outcome token_response :=
  match token_endpoint o [("refresh_token", refreshToken); ("client_id", clientId);
                          ("client_secret", clientSecret);
                          ("grant_type", "refresh_token")] with
  | ReplyThrows msg => Throw msg
  | ReplyError msg => Throw ("Token refresh failed: " +:+ msg)
  | Reply _ (inl e) => Throw ("Failed to parse refresh response: " +:+ e)
  | Reply _ (inr response) =>
      if truthy (oauth_error response)
      then Throw ("Token refresh error: " +:+ template (oauth_error response) +:+
                  " - " +:+ template (error_description response))
      else Ret response
  end.

(** The trace of this function holds its console line only: the token
    request goes to the [OAuth] endpoint. *)
Definition getValidAccessToken (w : World) (o : OAuth) : M (option string) :=
  let clientId := env w !! "GOOGLE_CLIENT_ID" in
  let clientSecret := env w !! "GOOGLE_CLIENT_SECRET" in
  let refreshToken := env w !! "GOOGLE_REFRESH_TOKEN" in
  let accessToken := env w !! "GOOGLE_OAUTH_ACCESS_TOKEN" in
  match clientId, clientSecret with
  | Some (String _ _ as clientId), Some (String _ _ as clientSecret) =>
      let use_access_token : M (option string) :=
        if truthy accessToken then mret accessToken
        else throw "No valid access token available. Please complete OAuth flow first." in
      match refreshToken with
      | Some (String _ _ as refreshToken) =>
          match refreshAccessToken o refreshToken clientId clientSecret with
          | Ret response => mret (access_token response)
          | Throw error =>
              emit (Console "warn" "Failed to refresh token:" (Some error));;
              use_access_token
          end
      | _ => use_access_token
      end
  | _, _ => throw "Google OAuth credentials not configured"
  end.

(** ** Helpers for the statements *)

(** Every character of [s] satisfies [p]. *)
Fixpoint string_forall (p : ascii -> bool) (s : string) : bool :=
  match s with
  | EmptyString => true
  | String c s' => p c && string_forall p s'
  end.

Definition not_brace (x : ascii) : bool := negb (Ascii.eqb "{" x).


(** The entry of the breakdown that [getAdSpend] pushes for a row. *)
Definition campaign_of_row (r : row) : campaign_spend :=
  {| c_id := campaign_id r;
     c_name := campaign_name r;
     c_status := campaign_status r;
     c_impressions := or_zero (metrics_impressions r);
     c_clicks := or_zero (metrics_clicks r);
     c_cost := micros_to_units (metrics_cost_micros r);
     c_conversions := or_zero (metrics_conversions r);
     c_averageCpc := or_zero (micros_to_units (metrics_average_cpc r)) |}.

Definition not_slash (x : ascii) : bool := negb (Ascii.eqb "/" x).

Definition is_digit (c : ascii) : bool :=
  let n := N_of_ascii c in ((48 <=? n) && (n <=? 57))%N.

Definition not_space (x : ascii) : bool := negb (Ascii.eqb " " x).

(** The calls to remote services among some events. *)
Definition network_events (l : list event) : list event := List.filter is_network l.

(** ** More worlds and inputs to run the code on *)

Definition offline_clickup_world : World :=
  offline_world {[ "CLICKUP_TOKEN" := "pk_1" ]} march_fifth.

(** A process with a token in which no request can be built. *)
Definition unbuildable_world : World :=
  {| env := {[ "CLICKUP_TOKEN" := "pk_1" ]};
     now := march_fifth;
     getFullYear := utc_getFullYear;
     startOfYear := utc_startOfYear;
     minusDays := utc_minusDays;
     toISOString := utc_toISOString;
     listAccessibleCustomers := fun _ => Throw "getaddrinfo ENOTFOUND";
     customer_query := fun _ _ _ _ => Throw "getaddrinfo ENOTFOUND";
     https_request := fun _ => RequestThrows "Request path contains unescaped characters" |}.

Definition untitled_task : taskData :=
  {| title := None; td_description := None; listId := Some "901"; spaceId := None;
     td_tags := None; assigneeId := None; dueDate := None; td_priority := None |}.

Definition sample_audit : auditData :=
  {| ad_recommendations := Some ["Review search terms"; "Check ad copy performance"];
     ad_analysisDate := None; ad_dataPoints := None; ad_listId := Some "901";
     ad_assigneeId := None |}.

Definition unlisted_audit : auditData :=
  {| ad_recommendations := Some ["Review search terms"];
     ad_analysisDate := None; ad_dataPoints := None; ad_listId := None;
     ad_assigneeId := None |}.

Definition all_search : searchOptions :=
  {| so_query := Some "ad audit"; so_spaceId := None; so_type := None;
     so_limit := None |}.

Definition odd_search : searchOptions :=
  {| so_query := Some "ad audit"; so_spaceId := None; so_type := Some "lists";
     so_limit := None |}.

Definition empty_search : searchOptions :=
  {| so_query := Some ""; so_spaceId := None; so_type := None; so_limit := None |}.

Definition statusless_task : task_body :=
  {| tb_name := Some "Audit"; tb_description := None; tb_status := None;
     tb_priority := None; tb_assignees := []; tb_tags := [];
     tb_due_date := None; tb_date_created := None; tb_date_updated := None;
     tb_err := None |}.

Definition open_task : task_body :=
  {| tb_name := Some "Audit"; tb_description := None; tb_status := Some (Some "open");
     tb_priority := None; tb_assignees := []; tb_tags := [];
     tb_due_date := None; tb_date_created := None; tb_date_updated := None;
     tb_err := None |}.

(** A tracker that refuses the lists and answers every task with a body
    that has no [status]. *)
Definition sample_workspace : Workspace :=
  {| space_lists := fun _ =>
       Reply 401 (inr {| lb_lists := None; lb_err := Some "Token invalid" |});
     task_details := fun _ => Reply 200 (inr statusless_task) |}.

Definition open_workspace : Workspace :=
  {| space_lists := fun _ =>
       Reply 200 (inr {| lb_lists := Some [{| rl_id := "901"; rl_name := "Audits" |}];
                         lb_err := None |});
     task_details := fun _ => Reply 200 (inr open_task) |}.

Definition blank_mcc_world : World :=
  offline_world {[ "GOOGLE_ADS_LOGIN_CUSTOMER_ID" := "---" ]} march_fifth.

Definition failing_ads_world : World :=
  offline_world {[ "GOOGLE_ADS_LOGIN_CUSTOMER_ID" := "111-222-3333" ]} march_fifth.

Definition oauth_world : World :=
  offline_world (<["GOOGLE_CLIENT_ID" := "client"]>
                 (<["GOOGLE_CLIENT_SECRET" := "secret"]>
                  (<["GOOGLE_REFRESH_TOKEN" := "1//refresh"]>
                   (<["GOOGLE_OAUTH_ACCESS_TOKEN" := "ya29.old"]> ∅))))
    march_fifth.

Definition refreshing_oauth : OAuth :=
  {| token_endpoint := fun _ =>
       Reply 200 (inr {| access_token := Some "ya29.new"; oauth_error := None;
                         error_description := None |}) |}.

Definition revoked_oauth : OAuth :=
  {| token_endpoint := fun _ =>
       Reply 400 (inr {| access_token := None; oauth_error := Some "invalid_grant";
                         error_description := Some "Token has been expired or revoked." |}) |}.

Definition stale_report : report :=
  {| leads := Some [{| lead_date := Some (march_fifth - 10 * msPerDay) |};
                    {| lead_date := None |}];
     searchTerms := None;
     campaigns := None |}.

(** * Properties *)

(** ** Running the monad *)

Ltac run :=
  unfold mbind, M_bind, mret, M_ret, try_catch, emit, lift, throw,
    console_error, console_log; simpl.

Lemma bind_ret {A B} (m : M A) (f : A -> M B) t a t' :
  m t = (Ret a, t') -> (m ≫= f) t = f a t'.
Proof. intros H. unfold mbind, M_bind. now rewrite H. Qed.

Lemma bind_throw {A B} (m : M A) (f : A -> M B) t e t' :
  m t = (Throw e, t') -> (m ≫= f) t = (Throw e, t').
Proof. intros H. unfold mbind, M_bind. now rewrite H. Qed.

Lemma try_catch_ret {A} (m : M A) h t a t' :
  m t = (Ret a, t') -> try_catch m h t = (Ret a, t').
Proof. intros H. unfold try_catch. now rewrite H. Qed.

Lemma try_catch_throw {A} (m : M A) h t e t' :
  m t = (Throw e, t') -> try_catch m h t = h e t'.
Proof. intros H. unfold try_catch. now rewrite H. Qed.

Lemma added_events_app {A} (m : M A) t l :
  snd (m t) = t ++ l -> added_events m t = l.
Proof. intros H. unfold added_events. rewrite H. apply drop_app_length. Qed.

(** ** Strings *)

Lemma append_assoc (a b c : string) : (a +:+ b) +:+ c = a +:+ (b +:+ c).
Proof. induction a as [|x a IH]; simpl; [reflexivity | now rewrite IH]. Qed.

Lemma append_empty_r (a : string) : a +:+ "" = a.
Proof. induction a as [|x a IH]; simpl; [reflexivity | now rewrite IH]. Qed.

Lemma append_length (a b : string) :
  String.length (a +:+ b) = (String.length a + String.length b)%nat.
Proof. induction a as [|x a IH]; simpl; [reflexivity | now rewrite IH]. Qed.

Lemma append_inj_length (a a' b b' : string) :
  a +:+ b = a' +:+ b' -> String.length a = String.length a' -> a = a' /\ b = b'.
Proof.
  revert a'. induction a as [|x a IH]; intros [|x' a'] Heq Hlen;
    simpl in *; try discriminate.
  - now split.
  - injection Heq as -> Heq. injection Hlen as Hlen.
    destruct (IH a' Heq Hlen) as [-> ->]. now split.
Qed.

Lemma strip_prefix_Some pat s rest :
  strip_prefix pat s = Some rest <-> s = pat +:+ rest.
Proof.
  revert s. induction pat as [|a pat IH]; intros s; simpl.
  - split; [now intros [= ->] | now intros ->].
  - destruct s as [|b s].
    + split; discriminate.
    + destruct (Ascii.eqb_spec a b) as [->|Hne].
      * rewrite IH. split; [now intros -> | now intros [= ->]].
      * split; [discriminate | intros [= ? ?]; congruence].
Qed.

Lemma strip_prefix_None pat s :
  strip_prefix pat s = None -> forall rest, s <> pat +:+ rest.
Proof.
  intros H rest Heq. apply strip_prefix_Some in Heq. congruence.
Qed.

Lemma split_first_equation pat s :
  split_first pat s =
  match strip_prefix pat s with
  | Some rest => Some (EmptyString, rest)
  | None =>
      match s with
      | EmptyString => None
      | String c s' =>
          match split_first pat s' with
          | Some (before, after) => Some (String c before, after)
          | None => None
          end
      end
  end.
Proof. destruct s; reflexivity. Qed.

(** [split_first] finds an occurrence, and the leftmost one. *)
Lemma split_first_Some pat s before after :
  split_first pat s = Some (before, after) -> first_occurrence pat s before after.
Proof.
  revert before after. induction s as [|c s IH]; intros before after;
    rewrite split_first_equation.
  - destruct (strip_prefix pat "") as [rest|] eqn:Hp; [|discriminate].
    intros [= <- <-]. apply strip_prefix_Some in Hp. split; [exact Hp|].
    intros; simpl; lia.
  - destruct (strip_prefix pat (String c s)) as [rest|] eqn:Hp.
    + intros [= <- <-]. apply strip_prefix_Some in Hp. split; [exact Hp|].
      intros; simpl; lia.
    + destruct (split_first pat s) as [[b a]|] eqn:Hs; [|discriminate].
      intros [= <- <-]. destruct (IH b a eq_refl) as [Heq Hmin]. split.
      * simpl. now rewrite Heq.
      * intros [|c' b'] a' Heq'.
        -- exfalso. exact (strip_prefix_None _ _ Hp a' Heq').
        -- simpl in Heq'. injection Heq' as -> Heq'.
           specialize (Hmin b' a' Heq'). simpl. lia.
Qed.

Lemma split_first_None pat s :
  split_first pat s = None -> forall before after, s <> before +:+ pat +:+ after.
Proof.
  induction s as [|c s IH]; rewrite split_first_equation.
  - destruct (strip_prefix pat "") eqn:Hp; [discriminate|].
    intros _ [|c' b] a Heq; [|discriminate].
    exact (strip_prefix_None _ _ Hp a Heq).
  - destruct (strip_prefix pat (String c s)) eqn:Hp; [discriminate|].
    destruct (split_first pat s) as [[b a]|] eqn:Hs; [discriminate|].
    intros _ [|c' b'] a' Heq.
    + exact (strip_prefix_None _ _ Hp a' Heq).
    + simpl in Heq. injection Heq as -> Heq. exact (IH eq_refl b' a' Heq).
Qed.

Lemma first_occurrence_split_first pat s before after :
  first_occurrence pat s before after -> split_first pat s = Some (before, after).
Proof.
  intros [Heq Hmin].
  destruct (split_first pat s) as [[b a]|] eqn:Hs.
  - apply split_first_Some in Hs as [Heq' Hmin'].
    pose proof (Hmin b a Heq') as H1. pose proof (Hmin' before after Heq) as H2.
    assert (Hlen : String.length before = String.length b) by lia.
    rewrite Heq in Heq'.
    destruct (append_inj_length _ _ _ _ Heq' Hlen) as [-> Hrest].
    apply (inj (String.app pat)) in Hrest. now subst.
  - exfalso. exact (split_first_None _ _ Hs before after Heq).
Qed.

Lemma includes_true pat s :
  includes s pat = true <-> exists before after, first_occurrence pat s before after.
Proof.
  unfold includes. split.
  - destruct (split_first pat s) as [[b a]|] eqn:Hs; [|discriminate].
    intros _. exists b, a. now apply split_first_Some.
  - intros (b & a & H). now rewrite (first_occurrence_split_first _ _ _ _ H).
Qed.

Lemma includes_false pat s :
  includes s pat = false <-> forall before after, s <> before +:+ pat +:+ after.
Proof.
  unfold includes. split.
  - destruct (split_first pat s) as [[b a]|] eqn:Hs; [discriminate|].
    intros _. now apply split_first_None.
  - intros H. destruct (split_first pat s) as [[b a]|] eqn:Hs; [|reflexivity].
    apply split_first_Some in Hs as [Heq _]. now destruct (H b a).
Qed.

Lemma no_dollar_app a b : no_dollar (a +:+ b) = no_dollar a && no_dollar b.
Proof.
  induction a as [|x a IH]; simpl; [reflexivity|].
  now rewrite IH, andb_assoc.
Qed.

Lemma getSubstitution_no_dollar matched before after repl :
  no_dollar repl = true -> getSubstitution matched before after repl = repl.
Proof.
  induction repl as [|c tl IH]; simpl; [reflexivity|].
  intros [Hc Htl]%andb_prop. apply negb_true_iff in Hc. rewrite Hc.
  now rewrite (IH Htl).
Qed.

Lemma no_dollar_pretty_N_char n : negb (Ascii.eqb (pretty_N_char n) "$") = true.
Proof. unfold pretty_N_char. repeat case_match; reflexivity. Qed.

Lemma no_dollar_pretty_N_go x s :
  no_dollar s = true -> no_dollar (pretty_N_go x s) = true.
Proof.
  revert s. induction (N.lt_wf_0 x) as [x _ IH]. intros s Hs.
  destruct (decide (x = 0%N)) as [->|Hx].
  - now rewrite pretty_N_go_0.
  - rewrite pretty_N_go_step by lia. apply IH.
    + apply N.div_lt; lia.
    + simpl. now rewrite no_dollar_pretty_N_char.
Qed.

Lemma no_dollar_pretty_N (n : N) : no_dollar (pretty n) = true.
Proof.
  unfold pretty, pretty_N. case_decide; [reflexivity|].
  now apply no_dollar_pretty_N_go.
Qed.

Lemma no_dollar_pretty_Z (z : Z) : no_dollar (pretty z) = true.
Proof.
  destruct z as [|p|p]; [reflexivity|..].
  - apply (no_dollar_pretty_N (Npos p)).
  - change (pretty (Zneg p)) with ("-" +:+ pretty (Npos p)).
    rewrite no_dollar_app. simpl. apply (no_dollar_pretty_N (Npos p)).
Qed.

Lemma no_dollar_padStart2 s : no_dollar s = true -> no_dollar (padStart2 s) = true.
Proof. destruct s as [|c [|d s]]; simpl; intros H; now rewrite ?H. Qed.

Lemma no_dollar_getISOWeek w : no_dollar (getISOWeek w) = true.
Proof.
  unfold getISOWeek. rewrite !no_dollar_app.
  rewrite no_dollar_pretty_Z, no_dollar_padStart2 by apply no_dollar_pretty_Z.
  reflexivity.
Qed.

(** ** The report analyzer *)

Section Analyzer.
Variable w : World.

(** What the analyzer returns: the recommendations of the three blocks in
    order, or the two defaults when there is none. *)
Lemma analyzeGoogleAdsReport_recommendations (r : report) :
  let fired := lead_recommendation (threeDaysAgo w) r ++ term_recommendation r ++
               campaign_recommendation r in
  recommendations (analyzeGoogleAdsReport w r) =
  match fired with
  | [] => default_recommendations
  | _ :: _ => fired
  end.
Proof.
  unfold analyzeGoogleAdsReport. simpl.
  rewrite <- app_assoc.
  destruct (lead_recommendation _ r ++ term_recommendation r ++
            campaign_recommendation r); reflexivity.
Qed.

(** When each block fires. *)
Lemma lead_recommendation_silent (r : report) :
  lead_recommendation (threeDaysAgo w) r = [] <->
  exists ls l, leads r = Some ls /\ In l ls /\ is_recent (threeDaysAgo w) l = true.
Proof.
  unfold lead_recommendation. destruct (leads r) as [[|l0 ls]|].
  - split; [discriminate | intros (? & ? & [= <-] & [] & _)].
  - destruct (List.filter _ (l0 :: ls)) as [|l' ls'] eqn:Hf; simpl.
    + split; [discriminate|]. intros (? & l & [= <-] & Hin & Hrec).
      assert (In l (List.filter (is_recent (threeDaysAgo w)) (l0 :: ls)))
        by (apply filter_In; now split).
      rewrite Hf in *. contradiction.
    + split; [|reflexivity]. intros _.
      assert (Hin : In l' (List.filter (is_recent (threeDaysAgo w)) (l0 :: ls)))
        by (rewrite Hf; now left).
      apply filter_In in Hin as [Hin Hrec]. eauto.
  - split; [discriminate | intros (? & ? & [=] & _)].
Qed.

Lemma term_recommendation_silent (r : report) :
  term_recommendation r = [] <->
  forall ts termObj, searchTerms r = Some ts -> In termObj ts ->
    is_unrelated termObj = false.
Proof.
  unfold term_recommendation. destruct (searchTerms r) as [[|t0 ts]|].
  - split; [intros _ ? ? [= <-] [] | reflexivity].
  - destruct (List.filter _ (t0 :: ts)) as [|t' ts'] eqn:Hf; simpl.
    + split; [|reflexivity]. intros _ ? termObj [= <-] Hin.
      destruct (is_unrelated termObj) eqn:Hu; [|reflexivity].
      assert (In termObj (List.filter is_unrelated (t0 :: ts)))
        by (apply filter_In; now split).
      rewrite Hf in *. contradiction.
    + split; [discriminate|]. intros H.
      assert (Hin : In t' (List.filter is_unrelated (t0 :: ts)))
        by (rewrite Hf; now left).
      apply filter_In in Hin as [Hin Hu].
      rewrite (H _ _ eq_refl Hin) in Hu. discriminate.
  - split; [intros _ ? ? [=] | reflexivity].
Qed.

Lemma campaign_recommendation_fires (r : report) :
  campaign_recommendation r = ["Suggest new creative for low-performing campaigns"] <->
  exists cs c, campaigns r = Some cs /\ In c cs /\ is_low_performing c = true.
Proof.
  unfold campaign_recommendation. destruct (campaigns r) as [[|c0 cs]|].
  - split; [discriminate | intros (? & ? & [= <-] & [] & _)].
  - destruct (List.filter _ (c0 :: cs)) as [|c' cs'] eqn:Hf; simpl.
    + split; [discriminate|]. intros (? & c & [= <-] & Hin & Hlow).
      assert (In c (List.filter is_low_performing (c0 :: cs)))
        by (apply filter_In; now split).
      rewrite Hf in *. contradiction.
    + split; [|reflexivity]. intros _.
      assert (Hin : In c' (List.filter is_low_performing (c0 :: cs)))
        by (rewrite Hf; now left).
      apply filter_In in Hin as [Hin Hlow]. eauto.
  - split; [discriminate | intros (? & ? & [=] & _)].
Qed.

Lemma campaign_recommendation_cases (r : report) :
  campaign_recommendation r = [] \/
  campaign_recommendation r = ["Suggest new creative for low-performing campaigns"].
Proof.
  unfold campaign_recommendation.
  destruct (campaigns r) as [[|c0 cs]|]; [now left| |now left].
  destruct (0 <? _)%nat; [now right | now left].
Qed.

(** The low-performer sentence is not one of the sentences of the other
    two blocks. *)
Lemma lead_recommendation_other (r : report) :
  ~ In "Suggest new creative for low-performing campaigns"
       (lead_recommendation (threeDaysAgo w) r).
Proof.
  unfold lead_recommendation.
  destruct (leads r) as [[|l0 ls]|]; [| destruct (_ =? _)%nat |];
    simpl; intuition discriminate.
Qed.

Lemma term_recommendation_other (r : report) :
  ~ In "Suggest new creative for low-performing campaigns" (term_recommendation r).
Proof.
  unfold term_recommendation.
  destruct (searchTerms r) as [[|t0 ts]|]; [intros [] | | intros []].
  destruct (0 <? _)%nat; [|intros []].
  simpl. intros [H|[]]. discriminate H.
Qed.

(** C1: for every report the analyzer returns at least one
    recommendation; when none of the lead, search-term and campaign rules
    fires, the list is exactly the two default recommendations. *)
Theorem analyzeGoogleAdsReport_never_empty (r : report) :
  (1 <= length (recommendations (analyzeGoogleAdsReport w r)))%nat /\
  (lead_recommendation (threeDaysAgo w) r = [] ->
   term_recommendation r = [] ->
   campaign_recommendation r = [] ->
   recommendations (analyzeGoogleAdsReport w r) =
     ["Review search terms"; "Check ad copy performance"]).
Proof.
  rewrite analyzeGoogleAdsReport_recommendations. split.
  - destruct (_ ++ _ ++ _); simpl; lia.
  - intros -> -> ->. reflexivity.
Qed.

(** C7: a report whose campaign list holds a campaign with [ctr < 0.02]
    or [conversionRate < 0.01] gets the generic low-performer
    recommendation, once, after those of the other blocks, whichever and
    however many campaigns are concerned. *)
Theorem low_performer_recommendation (r : report) (cs : list campaign) (c : campaign) :
  campaigns r = Some cs ->
  In c cs ->
  num_lt (ctr c) (num_dec 2 2) = true \/
  num_lt (conversionRate c) (num_dec 1 2) = true ->
  let recs := recommendations (analyzeGoogleAdsReport w r) in
  In "Suggest new creative for low-performing campaigns" recs /\
  count_occ string_dec recs "Suggest new creative for low-performing campaigns" = 1%nat /\
  recs = lead_recommendation (threeDaysAgo w) r ++ term_recommendation r ++
         ["Suggest new creative for low-performing campaigns"].
Proof.
  intros Hcs Hin Hlow recs.
  assert (Hfire : campaign_recommendation r =
                  ["Suggest new creative for low-performing campaigns"]).
  { apply campaign_recommendation_fires. exists cs, c. repeat split; trivial.
    unfold is_low_performing. apply orb_true_iff. exact Hlow. }
  assert (Hrecs : recs = lead_recommendation (threeDaysAgo w) r ++
                         term_recommendation r ++
                         ["Suggest new creative for low-performing campaigns"]).
  { unfold recs. rewrite analyzeGoogleAdsReport_recommendations, Hfire.
    destruct (lead_recommendation _ r); [|reflexivity].
    destruct (term_recommendation r); reflexivity. }
  split; [|split]; [| |exact Hrecs].
  - rewrite Hrecs, !in_app_iff. right; right. now left.
  - rewrite Hrecs, !count_occ_app.
    rewrite (proj1 (count_occ_not_In string_dec _ _) (lead_recommendation_other r)).
    rewrite (proj1 (count_occ_not_In string_dec _ _) (term_recommendation_other r)).
    reflexivity.
Qed.
End Analyzer.

Lemma analyzeGoogleAdsReport_never_empty_witness :
  recommendations (analyzeGoogleAdsReport unconfigured_world healthy_report) =
  ["Review search terms"; "Check ad copy performance"].
Proof.
  apply (analyzeGoogleAdsReport_never_empty unconfigured_world healthy_report);
    vm_compute; reflexivity.
Defined.

Lemma low_performer_recommendation_witness :
  let recs := recommendations (analyzeGoogleAdsReport unconfigured_world slow_report) in
  In "Suggest new creative for low-performing campaigns" recs /\
  count_occ string_dec recs "Suggest new creative for low-performing campaigns" = 1%nat /\
  recs = lead_recommendation (threeDaysAgo unconfigured_world) slow_report ++ term_recommendation slow_report ++
         ["Suggest new creative for low-performing campaigns"].
Proof.
  apply (low_performer_recommendation unconfigured_world slow_report
           [{| ctr := num_dec 5 2; conversionRate := NaN |};
            {| ctr := num_dec 196 4; conversionRate := NaN |}]
           {| ctr := num_dec 196 4; conversionRate := NaN |}).
  - reflexivity.
  - simpl. right. left. reflexivity.
  - left. vm_compute. reflexivity.
Defined.

(** ** Accounts *)

Lemma make_account_no_name (resourceNames : list string) (resourceName : string) :
  make_account resourceNames resourceName !! "name" = None.
Proof.
  unfold make_account. rewrite !lookup_insert_ne by discriminate.
  apply lookup_empty.
Qed.

Lemma make_account_keys (resourceNames : list string) (resourceName : string) :
  dom (make_account resourceNames resourceName) =
  ({["customerId"; "resourceName"; "isManager"]} : gset string).
Proof.
  unfold make_account. rewrite !dom_insert_L, dom_empty_L. set_solver.
Qed.

Lemma listAccessibleAccounts_run (w : World) (t : list event) :
  let refreshToken := env w !! "GOOGLE_ADS_REFRESH_TOKEN" in
  listAccessibleAccounts w t =
  match listAccessibleCustomers w refreshToken with
  | Ret customers =>
      (Ret (map (make_account (default [] customers)) (default [] customers)),
       t ++ [ListAccessibleCustomers refreshToken])
  | Throw e =>
      (Ret [],
       (t ++ [ListAccessibleCustomers refreshToken]) ++
       [Console "error" "Error listing accessible accounts:" (Some e)])
  end.
Proof.
  unfold listAccessibleAccounts. run.
  destruct (listAccessibleCustomers w _); reflexivity.
Qed.

(** The listing never throws, and no account it returns has a [name]. *)
Lemma listAccessibleAccounts_returns (w : World) (t : list event) :
  exists accounts t',
    listAccessibleAccounts w t = (Ret accounts, t') /\
    Forall (fun acc => acc !! "name" = None) accounts.
Proof.
  rewrite listAccessibleAccounts_run.
  destruct (listAccessibleCustomers w _) as [customers|e]; eexists _, _;
    (split; [reflexivity|]).
  - apply Forall_forall. intros acc Hin. apply list_elem_of_In in Hin.
    apply in_map_iff in Hin as (rn & <- & _). apply make_account_no_name.
  - constructor.
Qed.

Lemma find_account_no_name (name : string) (accounts : list (gmap string value)) :
  Forall (fun acc => acc !! "name" = None) accounts ->
  find_account (name_matches name) accounts = Ret None.
Proof.
  induction 1 as [|acc accounts Hacc _ IH]; simpl; [reflexivity|].
  unfold name_matches at 1. rewrite Hacc. exact IH.
Qed.

(** C10: whatever the name asked for, [lookupAccountIdByName] returns
    [null]: the listing always comes back with a list (possibly empty),
    none of its accounts carries a [name] field, so the match never
    succeeds. *)
Theorem lookupAccountIdByName_null (w : World) (name : string) (t : list event) :
  exists accounts t',
    listAccessibleAccounts w t = (Ret accounts, t') /\
    Forall (fun acc => acc !! "name" = None /\
                       dom acc = ({["customerId"; "resourceName"; "isManager"]} : gset string))
           accounts /\
    lookupAccountIdByName w name t = (Ret VNull, t').
Proof.
  destruct (listAccessibleAccounts_returns w t) as (accounts & t' & Hrun & Hno).
  exists accounts, t'. split; [exact Hrun|]. split.
  - rewrite listAccessibleAccounts_run in Hrun.
    destruct (listAccessibleCustomers w _) as [customers|e];
      injection Hrun as <- _; [|constructor].
    apply Forall_forall. intros acc Hin. apply list_elem_of_In in Hin.
    apply in_map_iff in Hin as (rn & <- & _).
    split; [apply make_account_no_name | apply make_account_keys].
  - unfold lookupAccountIdByName.
    rewrite (bind_ret _ _ _ _ _ Hrun).
    unfold lift, mbind, M_bind. rewrite (find_account_no_name name accounts Hno).
    reflexivity.
Qed.

(** ** Account info, ad spend and keyword performance *)

Section ManagementAccount.
Variable w : World.

(** Without the management-account identifier the guard throws, inside
    the [try] block, before anything is sent. *)
Lemma query_as_mcc_unconfigured (customerId query : string) (t : list event) :
  env w !! "GOOGLE_ADS_LOGIN_CUSTOMER_ID" = None ->
  query_as_mcc w customerId query t = (Throw "MCC Customer ID not configured", t).
Proof. intros H. unfold query_as_mcc. rewrite H. reflexivity. Qed.

Lemma query_as_mcc_configured (customerId query mcc : string) (t : list event) :
  env w !! "GOOGLE_ADS_LOGIN_CUSTOMER_ID" = Some mcc ->
  remove_dashes mcc <> "" ->
  let refreshToken := env w !! "GOOGLE_ADS_REFRESH_TOKEN" in
  query_as_mcc w customerId query t =
  (customer_query w (remove_dashes customerId) (remove_dashes mcc) refreshToken query,
   t ++ [Query (remove_dashes customerId) (remove_dashes mcc) refreshToken query]).
Proof.
  intros H Hne. unfold query_as_mcc. rewrite H. simpl.
  destruct (remove_dashes mcc) as [|c s]; [contradiction|].
  run. destruct (customer_query w _ _ _ _); reflexivity.
Qed.

(** C2, as the code has it: when the management-account identifier is
    absent from the environment, no request is sent and nothing is thrown
    to the caller, who gets the fallback of the operation: the sample
    spend summary, the sample keyword list, or [null] for the account
    info; the configuration error only reaches the console. *)
Theorem unconfigured_operations_fall_back (customerId : string) (days : Z)
    (t : list event) :
  env w !! "GOOGLE_ADS_LOGIN_CUSTOMER_ID" = None ->
  getAdSpend w customerId days t =
    (Ret (spend_fallback customerId days),
     t ++ [Console "error" "Error getting ad spend:"
             (Some "MCC Customer ID not configured")]) /\
  getKeywordPerformance w customerId days t =
    (Ret keyword_fallback,
     t ++ [Console "error" "Error getting keyword performance:"
             (Some "MCC Customer ID not configured")]) /\
  getAccountInfo w customerId t =
    (Ret None,
     t ++ [Console "error" "Error getting account info:"
             (Some "MCC Customer ID not configured")]).
Proof.
  intros H. unfold getAdSpend, getKeywordPerformance, getAccountInfo.
  repeat split;
    (erewrite try_catch_throw;
     [| apply bind_throw, query_as_mcc_unconfigured, H]; reflexivity).
Qed.

(** The loop of [getAdSpend] keeps each total as the running sum of its
    column. *)
Lemma spend_loop_totalSpend (rows : list row) (acc : spend_totals) :
  acc_totalSpend (fold_left spend_step rows acc) =
  fold_left num_add (map (fun r => micros_to_units (metrics_cost_micros r)) rows)
    (acc_totalSpend acc).
Proof.
  revert acc. induction rows as [|r rows IH]; intros acc; simpl; [reflexivity|].
  now rewrite IH.
Qed.

Lemma spend_loop_totalClicks (rows : list row) (acc : spend_totals) :
  acc_totalClicks (fold_left spend_step rows acc) =
  fold_left num_add (map (fun r => or_zero (metrics_clicks r)) rows)
    (acc_totalClicks acc).
Proof.
  revert acc. induction rows as [|r rows IH]; intros acc; simpl; [reflexivity|].
  now rewrite IH.
Qed.

Lemma spend_loop_campaigns (rows : list row) (acc : spend_totals) :
  length (acc_campaigns (fold_left spend_step rows acc)) =
  (length (acc_campaigns acc) + length rows)%nat.
Proof.
  revert acc. induction rows as [|r rows IH]; intros acc; simpl; [lia|].
  rewrite IH. simpl. rewrite length_app. simpl. lia.
Qed.

(** C9, as the code has it: in a summary computed from the rows of a
    successful query, [averageCpc] is the quotient of the summed spend
    (each [cost_micros] divided by 1,000,000) by the summed clicks,
    rounded to two decimals by [toFixed(2)], when the clicks are
    positive, and [0] otherwise. *)
Theorem getAdSpend_averageCpc (customerId mcc : string) (days : Z)
    (rows : list row) (t : list event) :
  env w !! "GOOGLE_ADS_LOGIN_CUSTOMER_ID" = Some mcc ->
  remove_dashes mcc <> "" ->
  customer_query w (remove_dashes customerId) (remove_dashes mcc)
    (env w !! "GOOGLE_ADS_REFRESH_TOKEN") (ad_spend_query days) = Ret rows ->
  let spend := sum_numbers (map (fun r => micros_to_units (metrics_cost_micros r)) rows) in
  let clicks := sum_numbers (map (fun r => or_zero (metrics_clicks r)) rows) in
  exists s t',
    getAdSpend w customerId days t = (Ret s, t') /\
    totalClicks s = clicks /\
    averageCpc s =
      (if num_lt num_zero clicks
       then parseFloat (toFixed2 (num_div spend clicks))
       else num_zero).
Proof.
  intros Hmcc Hne Hq spend clicks.
  pose proof (query_as_mcc_configured customerId (ad_spend_query days) mcc t Hmcc Hne)
    as Hrun.
  simpl in Hrun. rewrite Hq in Hrun.
  eexists _, _. split.
  - unfold getAdSpend. erewrite try_catch_ret; [reflexivity|].
    erewrite bind_ret by exact Hrun. reflexivity.
  - unfold spend_summary. simpl.
    rewrite spend_loop_totalSpend, spend_loop_totalClicks. split; reflexivity.
Qed.
End ManagementAccount.

(** [toFixed(2)] rounds to the nearest hundredth, upwards on a tie: the
    count [n] of hundredths it prints for [m * 2^e] is within one half of
    [100 * m * 2^e]. *)
Lemma toFixed2_nearest (s : bool) (m : positive) (e : Z) (n : Z) (neg : bool) :
  toFixed2 (S754_finite s m e) = FixedDecimal neg n ->
  neg = s /\
  if 0 <=? e then n = 100 * (Zpos m * 2 ^ e)
  else 2 ^ (- e) * (2 * n - 1) <= 200 * Zpos m < 2 ^ (- e) * (2 * n + 1).
Proof.
  unfold toFixed2. destruct (10 ^ 21 <=? _); [discriminate|].
  intros [= <- <-]. split; [reflexivity|].
  destruct (0 <=? e) eqn:He; [lia|].
  apply Z.leb_gt in He.
  assert (HP : 0 < 2 ^ (- e)) by (apply Z.pow_pos_nonneg; lia).
  set (P := 2 ^ (- e)) in *.
  pose proof (Z.div_mod (2 * (Zpos m * 100) + P) (2 * P) ltac:(lia)) as Hdm.
  pose proof (Z.mod_pos_bound (2 * (Zpos m * 100) + P) (2 * P) ltac:(lia)) as Hb.
  nia.
Qed.

Lemma unconfigured_operations_fall_back_witness :
  getAdSpend unconfigured_world "123-456-7890" 7 [] =
    (Ret (spend_fallback "123-456-7890" 7),
     [] ++ [Console "error" "Error getting ad spend:"
              (Some "MCC Customer ID not configured")]) /\
  getKeywordPerformance unconfigured_world "123-456-7890" 7 [] =
    (Ret keyword_fallback,
     [] ++ [Console "error" "Error getting keyword performance:"
              (Some "MCC Customer ID not configured")]) /\
  getAccountInfo unconfigured_world "123-456-7890" [] =
    (Ret None,
     [] ++ [Console "error" "Error getting account info:"
              (Some "MCC Customer ID not configured")]).
Proof.
  apply (unconfigured_operations_fall_back unconfigured_world "123-456-7890" 7 []).
  reflexivity.
Defined.

(** C2, as stated, fails: with an empty environment each of the three
    operations returns a value to its caller instead of throwing. *)
Lemma unconfigured_operations_do_not_throw :
  fst (getAdSpend unconfigured_world "123-456-7890" 7 []) =
    Ret (spend_fallback "123-456-7890" 7) /\
  fst (getKeywordPerformance unconfigured_world "123-456-7890" 7 []) =
    Ret keyword_fallback /\
  fst (getAccountInfo unconfigured_world "123-456-7890" []) = Ret None /\
  env unconfigured_world !! "GOOGLE_ADS_LOGIN_CUSTOMER_ID" = None /\
  ~ (exists e, fst (getAdSpend unconfigured_world "123-456-7890" 7 []) = Throw e).
Proof.
  repeat split; try reflexivity.
  intros [e He]. vm_compute in He. discriminate He.
Qed.

Lemma getAdSpend_averageCpc_witness :
  let spend := sum_numbers (map (fun r => micros_to_units (metrics_cost_micros r))
                              [sample_row 1000000 3]) in
  let clicks := sum_numbers (map (fun r => or_zero (metrics_clicks r))
                               [sample_row 1000000 3]) in
  exists s t',
    getAdSpend thirds_world "123-456" 7 [] = (Ret s, t') /\
    totalClicks s = clicks /\
    averageCpc s =
      (if num_lt num_zero clicks
       then parseFloat (toFixed2 (num_div spend clicks))
       else num_zero).
Proof.
  apply (getAdSpend_averageCpc thirds_world "123-456" "111-222-3333" 7
           [sample_row 1000000 3] []).
  - reflexivity.
  - vm_compute. discriminate.
  - reflexivity.
Defined.

(** C9, as stated, fails: one campaign that cost 1,000,000 micros for three
    clicks gives [averageCpc = 0.33], which is not the quotient [1 / 3]. *)
Lemma getAdSpend_averageCpc_not_the_quotient :
  exists s t',
    getAdSpend thirds_world "123-456" 7 [] = (Ret s, t') /\
    num_lt num_zero (totalClicks s) = true /\
    sum_numbers (map (fun r => micros_to_units (metrics_cost_micros r))
                   [sample_row 1000000 3]) = num_of_Z 1 /\
    totalSpend s = num_of_Z 1 /\
    totalClicks s = num_of_Z 3 /\
    averageCpc s = num_dec 33 2 /\
    averageCpc s <> num_div (num_of_Z 1) (num_of_Z 3).
Proof.
  eexists _, _. split; [vm_compute; reflexivity|].
  repeat split; try (vm_compute; reflexivity).
  vm_compute. discriminate.
Qed.

(** ** The week string *)

Lemma ceil_div7_spec (days : Z) :
  7 * (ceil_div7 days - 1) < days <= 7 * ceil_div7 days.
Proof.
  unfold ceil_div7.
  pose proof (Z.div_mod (- days) 7 ltac:(lia)).
  pose proof (Z.mod_pos_bound (- days) 7 ltac:(lia)). lia.
Qed.

(** The week number counts from the zero-based day index, so it is one less
    than [ceil(day-of-year / 7)] on the first day of every block of seven. *)
Lemma ceil_div7_day_of_year (days : Z) :
  ceil_div7 (days + 1) = if days mod 7 =? 0 then ceil_div7 days + 1 else ceil_div7 days.
Proof.
  pose proof (ceil_div7_spec days). pose proof (ceil_div7_spec (days + 1)).
  pose proof (Z.div_mod days 7 ltac:(lia)).
  pose proof (Z.mod_pos_bound days 7 ltac:(lia)).
  destruct (Z.eqb_spec (days mod 7) 0); lia.
Qed.

Lemma padStart2_two_digits (week : Z) :
  0 <= week <= 53 -> String.length (padStart2 (pretty week)) = 2%nat.
Proof.
  intros H.
  assert (Hall : forallb (fun k => Nat.eqb (String.length (padStart2 (pretty k))) 2)
                   (seqZ 0 54) = true) by (vm_compute; reflexivity).
  rewrite forallb_forall in Hall.
  apply Nat.eqb_eq, Hall, list_elem_of_In, elem_of_seqZ. lia.
Qed.

(** Within a year (at most 366 days from its start) the week number lies
    between 0 and 53, is printed with two digits, and is 0 exactly on the
    first day. *)
Lemma getISOWeek_week_number (w : World) :
  let year := getFullYear w (now w) in
  let days := (now w - startOfYear w year) / msPerDay in
  0 <= days <= 365 ->
  exists week,
    week = ceil_div7 days /\ 0 <= week <= 53 /\ (week = 0 <-> days = 0) /\
    String.length (padStart2 (pretty week)) = 2%nat /\
    getISOWeek w = pretty year +:+ "-W" +:+ padStart2 (pretty week).
Proof.
  intros year days Hdays. exists (ceil_div7 days).
  pose proof (ceil_div7_spec days) as Hs.
  assert (0 <= ceil_div7 days <= 53) by lia.
  repeat split; try lia.
  now apply padStart2_two_digits.
Qed.

(** The calendar in UTC: a day lies in the year computed for it, and
    January 1st of a year lies in that year. *)
Lemma days_of_year_start_le (d : Z) :
  days_of_year_start (year_of_days d) <= d < days_of_year_start (year_of_days d) + 366.
Proof.
  unfold year_of_days, civil_of_days, days_of_year_start. cbn [fst].
  destruct ((5 * _ + 2) / 153 <? 10) eqn:E1; destruct (_ <=? 2) eqn:E2;
    Z.to_euclidean_division_equations; lia.
Qed.

Lemma year_of_year_start (y : Z) : year_of_days (days_of_year_start y) = y.
Proof.
  unfold year_of_days, civil_of_days, days_of_year_start. cbn [fst].
  destruct ((5 * _ + 2) / 153 <? 10) eqn:E1; destruct (_ <=? 2) eqn:E2;
    Z.to_euclidean_division_equations; lia.
Qed.

Lemma utc_day_index (t : Z) :
  (t - utc_startOfYear (utc_getFullYear t)) / msPerDay =
  t / msPerDay - days_of_year_start (year_of_days (t / msPerDay)).
Proof.
  unfold utc_startOfYear, utc_getFullYear.
  replace (t - days_of_year_start (year_of_days (t / msPerDay)) * msPerDay)
    with (t + (- days_of_year_start (year_of_days (t / msPerDay))) * msPerDay) by lia.
  rewrite Z.div_add by (unfold msPerDay; lia). lia.
Qed.

Lemma utc_day_index_range (t : Z) :
  0 <= (t - utc_startOfYear (utc_getFullYear t)) / msPerDay <= 365.
Proof.
  rewrite utc_day_index. pose proof (days_of_year_start_le (t / msPerDay)). lia.
Qed.

(** In UTC the week printed always lies between 00 and 53. *)
Lemma getISOWeek_utc_range (w : World) :
  in_utc w ->
  exists week,
    0 <= week <= 53 /\
    getISOWeek w = pretty (utc_getFullYear (now w)) +:+ "-W" +:+ padStart2 (pretty week).
Proof.
  intros [Hy Hs].
  destruct (getISOWeek_week_number w) as (week & _ & Hrange & _ & _ & Heq).
  - rewrite Hy, Hs. apply utc_day_index_range.
  - exists week. rewrite Hy in Heq. now split.
Qed.

(** In UTC, at every instant of every January 1st, the week printed is 00. *)
Lemma getISOWeek_january_first (w : World) (year ms : Z) :
  in_utc w ->
  now w = utc_startOfYear year + ms ->
  0 <= ms < msPerDay ->
  getISOWeek w = pretty year +:+ "-W00".
Proof.
  intros [Hy Hs] Hnow Hms. unfold getISOWeek. rewrite Hy, Hs, Hnow.
  assert (Hday : (utc_startOfYear year + ms) / msPerDay = days_of_year_start year).
  { unfold utc_startOfYear. rewrite Z.add_comm, Z.div_add by (unfold msPerDay; lia).
    rewrite Z.div_small by lia. lia. }
  assert (Hyear : utc_getFullYear (utc_startOfYear year + ms) = year).
  { unfold utc_getFullYear. rewrite Hday. apply year_of_year_start. }
  rewrite Hyear.
  replace (utc_startOfYear year + ms - utc_startOfYear year) with ms by lia.
  rewrite Z.div_small by lia. reflexivity.
Qed.

(** C3 fails on January 1st: at noon UTC on 2025-01-01 the day index is 0,
    so the week printed is 00, outside 01-53 and different from
    [ceil(day-of-year / 7) = 1]. *)
Theorem getISOWeek_new_year_is_week_zero :
  getFullYear new_year_world (now new_year_world) = 2025 /\
  (now new_year_world - startOfYear new_year_world 2025) / msPerDay = 0 /\
  getISOWeek new_year_world = "2025-W00".
Proof. repeat split; vm_compute; reflexivity. Qed.

(** ** Creating tasks *)

Section CreateTask.
Variable w : World.

Lemma format_title_first_occurrence (title before after : string) :
  first_occurrence "{ISO Week}" title before after ->
  format_title w title = before +:+ getISOWeek w +:+ after.
Proof.
  intros H. apply first_occurrence_split_first in H.
  unfold format_title, includes, replace. rewrite H.
  now rewrite getSubstitution_no_dollar by apply no_dollar_getISOWeek.
Qed.

Lemma format_title_absent (title : string) :
  (forall before after, title <> before +:+ "{ISO Week}" +:+ after) ->
  format_title w title = title.
Proof.
  intros H. apply includes_false in H. unfold format_title. now rewrite H.
Qed.

Lemma trace_not_extended (t : list event) (e : event) : t <> t ++ [e].
Proof.
  intros H. apply (f_equal (@length event)) in H.
  rewrite length_app in H. simpl in H. lia.
Qed.

(** The only request [createTask] sends carries the payload built from
    the task data. *)
Lemma createTask_request (td : taskData) (t : list event) (req : http_request) :
  snd (createTask w td t) = t ++ [Https req] ->
  exists text lid,
    title td = Some text /\ listId td = Some lid /\
    req = {| method := "POST";
             path := "/api/v2/list/" +:+ lid +:+ "/task";
             authorization := env w !! "CLICKUP_TOKEN";
             body := Some (task_payload w td text) |}.
Proof.
  unfold createTask.
  destruct (negb (truthy (env w !! "CLICKUP_TOKEN")));
    [intros H; now apply trace_not_extended in H|].
  destruct (title td) as [[|c text]|];
    try (intros H; now apply trace_not_extended in H).
  destruct (listId td) as [[|c' lid]|];
    try (intros H; now apply trace_not_extended in H).
  destruct (https_request w _) as [msg|msg|statusCode [parseError|response]];
    run; try destruct (is_2xx statusCode); simpl;
    try (intros H; now apply trace_not_extended in H);
    intros H; apply app_inv_head in H; injection H as <-; eauto.
Qed.

(** With a token, a title and a list, and a request that can be built,
    the request is sent. *)
Lemma createTask_sends (td : taskData) (t : list event) (text lid : string) :
  truthy (env w !! "CLICKUP_TOKEN") = true ->
  title td = Some text -> text <> "" ->
  listId td = Some lid -> lid <> "" ->
  let req := {| method := "POST";
                path := "/api/v2/list/" +:+ lid +:+ "/task";
                authorization := env w !! "CLICKUP_TOKEN";
                body := Some (task_payload w td text) |} in
  (forall msg, https_request w req <> RequestThrows msg) ->
  snd (createTask w td t) = t ++ [Https req].
Proof.
  intros Htok Htitle Hne Hlid Hne' req Hreq. unfold createTask.
  rewrite Htok, Htitle, Hlid.
  destruct text as [|c text]; [contradiction|].
  destruct lid as [|c' lid]; [contradiction|]. cbn [negb].
  destruct (https_request w _) as [msg|msg|statusCode [parseError|response]];
    [now destruct (Hreq msg)|..]; run; try destruct (is_2xx statusCode);
    reflexivity.
Qed.

(** C8: in the payload of the request [createTask] sends, the first
    [{ISO Week}] of the title is replaced by the week string and what
    follows it, further tokens included, is kept as it is; a title
    without the token is passed unchanged. *)
Theorem createTask_title_placeholder (td : taskData) (t : list event)
    (req : http_request) :
  snd (createTask w td t) = t ++ [Https req] ->
  exists text p,
    title td = Some text /\ body req = Some p /\
    (forall before after,
        first_occurrence "{ISO Week}" text before after ->
        name p = before +:+ getISOWeek w +:+ after) /\
    ((forall before after, text <> before +:+ "{ISO Week}" +:+ after) ->
     name p = text).
Proof.
  intros H. apply createTask_request in H as (text & lid & Ht & _ & ->).
  exists text, (task_payload w td text). repeat split; trivial; simpl.
  - apply format_title_first_occurrence.
  - apply format_title_absent.
Qed.

(** C5: an audit whose recommendations are absent or empty is answered
    [success: false] at once: nothing is added to the trace, so no
    request is made and [createTask] is not run. *)
Theorem createAdAuditTask_without_recommendations (a : auditData) (t : list event) :
  ad_recommendations a = None \/ ad_recommendations a = Some [] ->
  createAdAuditTask w a t =
  (Ret {| tr_success := false; tr_task := None; tr_taskId := None;
          tr_taskUrl := None;
          tr_message := Some "No recommendations to create task for";
          tr_error := None; tr_statusCode := None; tr_response := None |},
   t).
Proof. intros [H|H]; unfold createAdAuditTask; rewrite H; reflexivity. Qed.

(** With recommendations the audit task goes through [createTask]. *)
Lemma createAdAuditTask_with_recommendations (a : auditData) (t : list event)
    (rec : string) (recs : list string) :
  ad_recommendations a = Some (rec :: recs) ->
  createAdAuditTask w a t =
  createTask w
    {| title := Some ("Ad Audit – Week " +:+ getISOWeek w);
       td_description := Some (formatAuditDescription w a (rec :: recs));
       listId := ad_listId a; spaceId := None;
       td_tags := Some ["ad-audit"; "automated"; "google-ads"];
       assigneeId := ad_assigneeId a;
       dueDate := Some (now w + 7 * msPerDay);
       td_priority := Some 2 |} t.
Proof. intros H. unfold createAdAuditTask. now rewrite H. Qed.
End CreateTask.

Lemma createTask_title_placeholder_witness :
  exists text p,
    title two_token_task = Some text /\
    body {| method := "POST"; path := "/api/v2/list/901/task";
            authorization := Some "pk_1";
            body := Some (task_payload clickup_world two_token_task
                            "Audit {ISO Week} vs {ISO Week}") |} = Some p /\
    (forall before after,
        first_occurrence "{ISO Week}" text before after ->
        name p = before +:+ getISOWeek clickup_world +:+ after) /\
    ((forall before after, text <> before +:+ "{ISO Week}" +:+ after) ->
     name p = text).
Proof.
  apply (createTask_title_placeholder clickup_world two_token_task []).
  vm_compute. reflexivity.
Defined.

Example two_tokens_first_occurrence :
  first_occurrence "{ISO Week}" "Audit {ISO Week} vs {ISO Week}"
    "Audit " " vs {ISO Week}".
Proof. apply split_first_Some. vm_compute. reflexivity. Qed.

(** The second token of a title stays. *)
Example createTask_two_tokens :
  snd (createTask clickup_world two_token_task []) =
  [Https {| method := "POST"; path := "/api/v2/list/901/task";
            authorization := Some "pk_1";
            body := Some {| name := "Audit 2025-W09 vs {ISO Week}";
                            description := ""; status := "to do"; priority := 3;
                            due_date := None; assignees := []; tags := [] |} |}].
Proof. vm_compute. reflexivity. Qed.

Lemma createAdAuditTask_without_recommendations_witness :
  createAdAuditTask clickup_world empty_audit [] =
  (Ret {| tr_success := false; tr_task := None; tr_taskId := None;
          tr_taskUrl := None;
          tr_message := Some "No recommendations to create task for";
          tr_error := None; tr_statusCode := None; tr_response := None |},
   []).
Proof.
  apply (createAdAuditTask_without_recommendations clickup_world empty_audit []).
  right. reflexivity.
Defined.

(** ** Search *)

Section Search.
Variable w : World.

(** A sub-search either rejects before anything is sent, or sends its one
    request and resolves with a list. *)
Lemma searchTasks_cases (spaceId query : string) (limit : Z) (t : list event) :
  (exists msg, searchTasks w spaceId query limit t = (Throw msg, t)) \/
  (exists taskResults,
      searchTasks w spaceId query limit t =
      (Ret taskResults, t ++ [Https (search_request w spaceId "task" query limit)])).
Proof.
  unfold searchTasks.
  destruct (https_request w _) as [msg|msg|statusCode [parseError|response]];
    run; try destruct (is_2xx statusCode); eauto.
Qed.

Lemma searchDocs_cases (spaceId query : string) (limit : Z) (t : list event) :
  (exists msg, searchDocs w spaceId query limit t = (Throw msg, t)) \/
  (exists docResults,
      searchDocs w spaceId query limit t =
      (Ret docResults, t ++ [Https (search_request w spaceId "doc" query limit)])).
Proof.
  unfold searchDocs.
  destruct (https_request w _) as [msg|msg|statusCode [parseError|response]];
    run; try destruct (is_2xx statusCode); eauto.
Qed.

(** The request of a task search is never that of a docs search. *)
Lemma search_request_kinds (spaceId query query' : string) (limit : Z) :
  search_request w spaceId "task" query limit <>
  search_request w spaceId "doc" query' limit.
Proof.
  unfold search_request. intros H. injection H as H.
  apply (inj (String.app spaceId)) in H.
  discriminate H.
Qed.

(** With a token and a query the search returns: it never throws. *)
Lemma searchClickUp_returns (so : searchOptions) (t : list event) :
  truthy (env w !! "CLICKUP_TOKEN") = true ->
  truthy (so_query so) = true ->
  exists res t', searchClickUp w so t = (Ret res, t').
Proof.
  intros Htok Hq. unfold searchClickUp. rewrite Htok. simpl.
  destruct (so_query so) as [[|c query]|]; try discriminate.
  set (spaceId := default DEFAULT_SPACE_ID (so_spaceId so)).
  set (limit := default 20 (so_limit so)).
  destruct (searchTasks_cases spaceId (String c query) limit t)
    as [[msg Ht]|[taskResults Ht]];
  destruct (String.eqb _ "all" || String.eqb _ "tasks");
  destruct (String.eqb _ "all" || String.eqb _ "docs");
  unfold try_catch, mbind, M_bind, mret, M_ret; rewrite ?Ht;
  try (destruct (searchDocs_cases spaceId (String c query) limit t)
         as [[msg' Hd]|[docResults Hd]]; rewrite ?Hd);
  try (destruct (searchDocs_cases spaceId (String c query) limit
                   (t ++ [Https (search_request w spaceId "task" (String c query) limit)]))
         as [[msg'' Hd']|[docResults' Hd']]; rewrite ?Hd');
  eauto.
Qed.

(** C6: a search of type ["tasks"] sends at most the one task request,
    never the docs request, and leaves the docs list empty; and every
    search that succeeds reports
    [totalResults = tasks.length + docs.length]. *)
Theorem searchClickUp_tasks_only_and_total (so : searchOptions) (t : list event) :
  let spaceId := default DEFAULT_SPACE_ID (so_spaceId so) in
  let limit := default 20 (so_limit so) in
  (so_type so = Some "tasks" ->
   (snd (searchClickUp w so t) = t \/
    exists query,
      so_query so = Some query /\
      snd (searchClickUp w so t) =
        t ++ [Https (search_request w spaceId "task" query limit)]) /\
   (forall query, ~ In (Https (search_request w spaceId "doc" query limit))
                     (added_events (searchClickUp w so) t)) /\
   (forall res, fst (searchClickUp w so t) = Ret res ->
                res_docs (sr_results res) = [])) /\
  (forall res,
      fst (searchClickUp w so t) = Ret res ->
      sr_success res = true ->
      totalResults (sr_results res) =
        (length (res_tasks (sr_results res)) + length (res_docs (sr_results res)))%nat).
Proof.
  intros spaceId limit. split.
  - intros Htype.
    assert (Htrace : snd (searchClickUp w so t) = t \/
              exists query, so_query so = Some query /\
                snd (searchClickUp w so t) =
                t ++ [Https (search_request w spaceId "task" query limit)]).
    { unfold searchClickUp. rewrite Htype.
      destruct (negb (truthy (env w !! "CLICKUP_TOKEN"))); [now left|].
      destruct (so_query so) as [[|c query]|]; [now left| |now left].
      simpl. fold spaceId limit.
      destruct (searchTasks_cases spaceId (String c query) limit t)
        as [[msg Ht]|[taskResults Ht]];
        unfold try_catch, mbind, M_bind, mret, M_ret; rewrite Ht;
        [now left | right; eauto]. }
    split; [exact Htrace|]. split.
    + intros query Hin.
      destruct Htrace as [Ht|(query' & _ & Ht)].
      * unfold added_events in Hin. rewrite Ht, drop_all in Hin. destruct Hin.
      * rewrite (added_events_app _ _ _ Ht) in Hin.
        destruct Hin as [Hin|[]].
        apply (search_request_kinds spaceId query' query limit). congruence.
    + unfold searchClickUp. rewrite Htype.
      destruct (negb (truthy (env w !! "CLICKUP_TOKEN"))); [discriminate|].
      destruct (so_query so) as [[|c query]|]; try discriminate.
      simpl. fold spaceId limit.
      destruct (searchTasks_cases spaceId (String c query) limit t)
        as [[msg Ht]|[taskResults Ht]];
        unfold try_catch, mbind, M_bind, mret, M_ret; rewrite Ht;
        simpl; intros res [= <-]; reflexivity.
  - unfold searchClickUp.
    destruct (negb (truthy (env w !! "CLICKUP_TOKEN"))); [discriminate|].
    destruct (so_query so) as [[|c query]|]; try discriminate.
    fold spaceId limit.
    destruct (searchTasks_cases spaceId (String c query) limit t)
      as [[msg Ht]|[taskResults Ht]];
    destruct (String.eqb _ "all" || String.eqb _ "tasks");
    destruct (String.eqb _ "all" || String.eqb _ "docs");
    unfold try_catch, mbind, M_bind, mret, M_ret; rewrite ?Ht;
    try (destruct (searchDocs_cases spaceId (String c query) limit t)
           as [[msg' Hd]|[docResults Hd]]; rewrite ?Hd);
    try (destruct (searchDocs_cases spaceId (String c query) limit
                     (t ++ [Https (search_request w spaceId "task" (String c query) limit)]))
           as [[msg'' Hd']|[docResults' Hd']]; rewrite ?Hd');
    simpl; intros res [= <-]; simpl; intros; (reflexivity || discriminate).
Qed.
End Search.

Lemma searchClickUp_tasks_only_and_total_witness :
  res_docs (sr_results tasks_search_result) = [] /\
  totalResults (sr_results tasks_search_result) = 1%nat.
Proof.
  destruct (searchClickUp_tasks_only_and_total clickup_world tasks_search []) as [H1 H2].
  split.
  - apply (H1 eq_refl). reflexivity.
  - apply (H2 tasks_search_result); reflexivity.
Defined.

(** ** The dispatcher *)

Section Dispatcher.
Variable w : World.

Lemma try_catch_returns {A} (m : M A) (h : string -> M A) (t : list event) :
  (forall e t, exists a t', h e t = (Ret a, t')) ->
  exists a t', try_catch m h t = (Ret a, t').
Proof.
  intros Hh. unfold try_catch. destruct (m t) as [[a|e] t']; eauto.
Qed.

(** Nothing thrown inside the dispatcher leaves it. *)
Lemma handleToolCall_returns (toolName : string) (args : tool_args) (t : list event) :
  exists e t', handleToolCall w toolName args t = (Ret e, t').
Proof.
  unfold handleToolCall, console_log.
  unfold mbind at 1, M_bind at 1. unfold emit at 1.
  apply try_catch_returns. intros e t0. run. eauto.
Qed.

(** C4: a name that is not in the registry is answered with the failure
    envelope [Unknown tool: <name>], returned, not thrown; the only
    events are the two console lines. *)
Theorem handleToolCall_unknown_tool (toolName : string) (args : tool_args)
    (t : list event) :
  ~ In toolName (map tool_name tools) ->
  handleToolCall w toolName args t =
  (Ret {| success := false; data := None; message := None;
          error := Some ("Unknown tool: " +:+ toolName) |},
   t ++ [Console "log" ("MCP Tool Call: " +:+ toolName) None;
         Console "error" "MCP Tool Error:" (Some ("Unknown tool: " +:+ toolName))]).
Proof.
  intros Hnot. simpl in Hnot. unfold handleToolCall.
  destruct (String.eqb_spec toolName "list_google_ads_accounts") as [->|_];
    [exfalso; apply Hnot; auto|].
  destruct (String.eqb_spec toolName "get_account_info") as [->|_];
    [exfalso; apply Hnot; auto|].
  destruct (String.eqb_spec toolName "get_ad_spend") as [->|_];
    [exfalso; apply Hnot; auto|].
  destruct (String.eqb_spec toolName "get_keyword_performance") as [->|_];
    [exfalso; apply Hnot; auto 6|].
  run. now rewrite <- app_assoc.
Qed.
End Dispatcher.

Lemma handleToolCall_unknown_tool_witness :
  handleToolCall unconfigured_world "unknown_tool"
    {| arg_customerId := None; arg_days := None |} [] =
  (Ret {| success := false; data := None; message := None;
          error := Some ("Unknown tool: " +:+ "unknown_tool") |},
   [] ++ [Console "log" ("MCP Tool Call: " +:+ "unknown_tool") None;
          Console "error" "MCP Tool Error:"
            (Some ("Unknown tool: " +:+ "unknown_tool"))]).
Proof.
  apply (handleToolCall_unknown_tool unconfigured_world "unknown_tool").
  simpl. intros [H|[H|[H|[H|[]]]]]; discriminate H.
Defined.

(** * Further properties of the adapters *)

(** ** More on strings *)

Lemma includes_intro (s pat before after : string) :
  s = before +:+ pat +:+ after -> includes s pat = true.
Proof.
  intros Heq. destruct (includes s pat) eqn:H; [reflexivity|].
  exfalso. exact (proj1 (includes_false pat s) H before after Heq).
Qed.

Lemma string_forall_app (p : ascii -> bool) (a b : string) :
  string_forall p (a +:+ b) = string_forall p a && string_forall p b.
Proof.
  induction a as [|x a IH]; simpl; [reflexivity|].
  now rewrite IH, andb_assoc.
Qed.

Lemma string_forall_pretty_N_go (p : ascii -> bool) (x : N) (s : string) :
  (forall n, p (pretty_N_char n) = true) ->
  string_forall p s = true -> string_forall p (pretty_N_go x s) = true.
Proof.
  intros Hp. revert s. induction (N.lt_wf_0 x) as [x _ IH]. intros s Hs.
  destruct (decide (x = 0%N)) as [->|Hx].
  - now rewrite pretty_N_go_0.
  - rewrite pretty_N_go_step by lia. apply IH.
    + apply N.div_lt; lia.
    + simpl. now rewrite Hp.
Qed.

Lemma string_forall_pretty_N (p : ascii -> bool) (n : N) :
  (forall n, p (pretty_N_char n) = true) -> string_forall p (pretty n) = true.
Proof.
  intros Hp. unfold pretty, pretty_N. case_decide.
  - pose proof (Hp 0%N) as H0. simpl in *. now rewrite H0.
  - now apply string_forall_pretty_N_go.
Qed.

Lemma string_forall_pretty_Z (p : ascii -> bool) (z : Z) :
  (forall n, p (pretty_N_char n) = true) -> p "-"%char = true ->
  string_forall p (pretty z) = true.
Proof.
  intros Hp Hdash. destruct z as [|q|q].
  - pose proof (Hp 0%N) as H0. simpl in *. now rewrite H0.
  - now apply (string_forall_pretty_N p (Npos q)).
  - change (pretty (Zneg q)) with ("-" +:+ pretty (Npos q)).
    rewrite string_forall_app. simpl. rewrite Hdash. simpl.
    now apply (string_forall_pretty_N p (Npos q)).
Qed.

Lemma string_forall_padStart2 (p : ascii -> bool) (s : string) :
  p "0"%char = true -> string_forall p s = true ->
  string_forall p (padStart2 s) = true.
Proof.
  intros H0 Hs. destruct s as [|c [|d s]]; simpl in *; now rewrite ?H0, ?Hs.
Qed.

(** A string in which the first character of [pat] does not occur does not
    contain [pat]. *)
Lemma split_first_absent_char (c : ascii) (pat s : string) :
  string_forall (fun x => negb (Ascii.eqb c x)) s = true ->
  split_first (String c pat) s = None.
Proof.
  induction s as [|x s IH]; intros H; rewrite split_first_equation; simpl.
  - reflexivity.
  - simpl in H. apply andb_prop in H as [Hx Hs]. apply negb_true_iff in Hx.
    rewrite Hx. now rewrite (IH Hs).
Qed.

Lemma getISOWeek_no_brace (w : World) : string_forall not_brace (getISOWeek w) = true.
Proof.
  unfold getISOWeek. rewrite !string_forall_app.
  assert (Hd : forall n, not_brace (pretty_N_char n) = true)
    by (intros n; unfold pretty_N_char; repeat case_match; reflexivity).
  rewrite string_forall_pretty_Z by (trivial; reflexivity).
  rewrite string_forall_padStart2
    by (try reflexivity; apply string_forall_pretty_Z; trivial; reflexivity).
  reflexivity.
Qed.

Lemma is_2xx_spec (statusCode : Z) :
  is_2xx statusCode = true <-> 200 <= statusCode < 300.
Proof. unfold is_2xx. rewrite andb_true_iff, Z.leb_le, Z.ltb_lt. reflexivity. Qed.

(** ** Creating tasks: guards, outcomes, the audit task *)

Section CreateTaskMore.
Variable w : World.

(** X1: [createTask] fails before sending anything when the token is missing
    or empty (configuration error) and, the token being there, when the
    title or the list identifier is missing or empty (validation error);
    the token is checked first. *)
Theorem createTask_guards (td : taskData) (t : list event) :
  (truthy (env w !! "CLICKUP_TOKEN") = false ->
   createTask w td t =
     (Throw "CLICKUP_TOKEN environment variable is required", t)) /\
  (truthy (env w !! "CLICKUP_TOKEN") = true ->
   truthy (title td) = false \/ truthy (listId td) = false ->
   createTask w td t = (Throw "Task title and listId are required", t)).
Proof.
  unfold createTask. split.
  - intros ->. reflexivity.
  - intros -> H. simpl.
    destruct (title td) as [[|c text]|], (listId td) as [[|c' lid]|];
      try reflexivity.
    destruct H; discriminate.
Qed.


(** The title of the audit task holds no placeholder. *)
Lemma audit_title_untouched :
  format_title w ("Ad Audit – Week " +:+ getISOWeek w) =
  "Ad Audit – Week " +:+ getISOWeek w.
Proof.
  unfold format_title, includes.
  rewrite split_first_absent_char; [reflexivity|].
  rewrite string_forall_app. rewrite getISOWeek_no_brace. reflexivity.
Qed.

Lemma formatAuditDescription_nonempty (a : auditData) (recs : list string) :
  exists c rest, formatAuditDescription w a recs = String c rest.
Proof.
  unfold formatAuditDescription. destruct (ad_dataPoints a); simpl; eauto.
Qed.

(** X3: an audit with at least one recommendation, a list and a token sends
    one create-task request to that list: the title is
    [Ad Audit – Week <week>] with no placeholder rewriting, the priority is
    2, the tags are the three fixed ones, the due date is seven days after
    now, and the description is the formatted report. *)
Theorem createAdAuditTask_request (a : auditData) (t : list event)
    (rec : string) (recs : list string) (lid : string) :
  ad_recommendations a = Some (rec :: recs) ->
  truthy (env w !! "CLICKUP_TOKEN") = true ->
  ad_listId a = Some lid -> lid <> "" ->
  (forall req msg, https_request w req <> RequestThrows msg) ->
  snd (createAdAuditTask w a t) =
  t ++ [Https {| method := "POST";
                 path := "/api/v2/list/" +:+ lid +:+ "/task";
                 authorization := env w !! "CLICKUP_TOKEN";
                 body := Some {| name := "Ad Audit – Week " +:+ getISOWeek w;
                                 description := formatAuditDescription w a (rec :: recs);
                                 status := "to do";
                                 priority := 2;
                                 due_date := Some (now w + 7 * msPerDay);
                                 assignees := match ad_assigneeId a with
                                              | Some (String _ _ as x) => [x]
                                              | _ => []
                                              end;
                                 tags := ["ad-audit"; "automated"; "google-ads"] |} |}].
Proof.
  intros Hrecs Htok Hlid Hne Hreq.
  rewrite (createAdAuditTask_with_recommendations w a t rec recs Hrecs).
  erewrite createTask_sends; [| exact Htok | reflexivity | discriminate
                              | exact Hlid | exact Hne | intros msg; apply Hreq].
  unfold task_payload. cbn [title td_description td_priority dueDate assigneeId td_tags].
  rewrite audit_title_untouched.
  destruct (formatAuditDescription_nonempty a (rec :: recs)) as (c & rest & ->).
  reflexivity.
Qed.

(** X4: an audit that has recommendations still fails like [createTask]
    does, before anything is sent: with a configuration error without a
    token, with a validation error without a list identifier. *)
Theorem createAdAuditTask_guards (a : auditData) (t : list event)
    (rec : string) (recs : list string) :
  ad_recommendations a = Some (rec :: recs) ->
  (truthy (env w !! "CLICKUP_TOKEN") = false ->
   createAdAuditTask w a t =
     (Throw "CLICKUP_TOKEN environment variable is required", t)) /\
  (truthy (env w !! "CLICKUP_TOKEN") = true ->
   truthy (ad_listId a) = false ->
   createAdAuditTask w a t = (Throw "Task title and listId are required", t)).
Proof.
  intros Hrecs.
  rewrite (createAdAuditTask_with_recommendations w a t rec recs Hrecs).
  unfold createTask. split.
  - intros ->. reflexivity.
  - intros -> Hl. cbn [negb title listId].
    destruct (ad_listId a) as [[|c lid]|]; try discriminate; reflexivity.
Qed.

Lemma numbered_app (index : nat) (l1 l2 : list string) :
  numbered index (l1 ++ l2) = numbered index l1 +:+ numbered (index + length l1) l2.
Proof.
  revert index. induction l1 as [|r l1 IH]; intros index; simpl.
  - now rewrite Nat.add_0_r.
  - rewrite IH.
    replace (index + S (length l1))%nat with (S index + length l1)%nat by lia.
    rewrite !append_assoc. simpl. now rewrite !append_assoc.
Qed.

Lemma formatAuditDescription_shape (a : auditData) :
  exists pre post, forall recs,
    formatAuditDescription w a recs = pre +:+ numbered 0 recs +:+ post.
Proof.
  eexists _, _. intros recs. unfold formatAuditDescription. cbv zeta.
  apply append_assoc.
Qed.

(** X5: the description of the audit task lists every recommendation on a
    line of its own, numbered from 1 in the order of the list. *)
Theorem formatAuditDescription_numbers_each (a : auditData)
    (earlier later : list string) (rec : string) :
  includes (formatAuditDescription w a (earlier ++ rec :: later))
           (pretty (length earlier + 1)%nat +:+ ". " +:+ rec +:+ nl) = true.
Proof.
  destruct (formatAuditDescription_shape a) as (pre & post & ->).
  rewrite numbered_app. cbn [numbered]. rewrite Nat.add_0_l.
  apply (includes_intro _ _ (pre +:+ numbered 0 earlier)
           (numbered (length earlier + 1) later +:+ post)).
  rewrite !append_assoc. simpl. rewrite ?append_assoc.
  now replace (S (length earlier)) with (length earlier + 1)%nat by lia.
Qed.
End CreateTaskMore.

(** ** Search: guards, soft failures, the failure envelope *)

Section SearchMore.
Variable w : World.

Lemma searchTasks_outcome (spaceId query : string) (limit : Z) (t : list event) :
  let req := search_request w spaceId "task" query limit in
  (exists msg, https_request w req = RequestThrows msg /\
               searchTasks w spaceId query limit t = (Throw msg, t)) \/
  (exists taskResults,
      searchTasks w spaceId query limit t = (Ret taskResults, t ++ [Https req]) /\
      Forall (fun x => ts_type x = "task") taskResults).
Proof.
  intros req. unfold searchTasks. fold req.
  destruct (https_request w req) as [msg|msg|statusCode [parseError|response]];
    run; try destruct (is_2xx statusCode); eauto.
  right. eexists. split; [reflexivity|].
  apply Forall_forall. intros x Hin. apply list_elem_of_In in Hin.
  apply in_map_iff in Hin as (task & <- & _). reflexivity.
Qed.

Lemma searchDocs_outcome (spaceId query : string) (limit : Z) (t : list event) :
  let req := search_request w spaceId "doc" query limit in
  (exists msg, https_request w req = RequestThrows msg /\
               searchDocs w spaceId query limit t = (Throw msg, t)) \/
  (exists docResults,
      searchDocs w spaceId query limit t = (Ret docResults, t ++ [Https req]) /\
      Forall (fun d => ds_type d = "doc") docResults).
Proof.
  intros req. unfold searchDocs. fold req.
  destruct (https_request w req) as [msg|msg|statusCode [parseError|response]];
    run; try destruct (is_2xx statusCode); eauto.
  right. eexists. split; [reflexivity|].
  apply Forall_forall. intros x Hin. apply list_elem_of_In in Hin.
  apply in_map_iff in Hin as (doc & <- & _). reflexivity.
Qed.

(** The search, once its guards are passed, by cases on what the two
    sub-searches do. *)
Ltac search_cases spaceId query limit t :=
  destruct (searchTasks_outcome spaceId query limit t)
    as [(msg & Hthrow & Ht)|(taskResults & Ht & Htag)];
  destruct (String.eqb _ "all" || String.eqb _ "tasks");
  destruct (String.eqb _ "all" || String.eqb _ "docs");
  unfold try_catch, mbind, M_bind, mret, M_ret; rewrite ?Ht;
  try (destruct (searchDocs_outcome spaceId query limit t)
         as [(msg' & Hthrow' & Hd)|(docResults & Hd & Htag')]; rewrite ?Hd);
  try (destruct (searchDocs_outcome spaceId query limit
                   (t ++ [Https (search_request w spaceId "task" query limit)]))
         as [(msg'' & Hthrow'' & Hd')|(docResults' & Hd' & Htag'')]; rewrite ?Hd').

(** X6: the search fails before sending anything when the token is missing
    or empty and, the token being there, when the query is missing or
    empty; these two errors are thrown, not put in an envelope. *)
Theorem searchClickUp_guards (so : searchOptions) (t : list event) :
  (truthy (env w !! "CLICKUP_TOKEN") = false ->
   searchClickUp w so t =
     (Throw "CLICKUP_TOKEN environment variable is required", t)) /\
  (truthy (env w !! "CLICKUP_TOKEN") = true ->
   truthy (so_query so) = false ->
   searchClickUp w so t = (Throw "Search query is required", t)).
Proof.
  unfold searchClickUp. split.
  - intros ->. reflexivity.
  - intros -> Hq. simpl.
    destruct (so_query so) as [[|c query]|]; try discriminate; reflexivity.
Qed.

(** X7: with a token and a query, as long as the requests can be built the
    search succeeds whatever the tracker answers: transport errors,
    unparsable bodies and refusals of a sub-search are not reported. *)
Theorem searchClickUp_soft_failures (so : searchOptions) (t : list event) :
  truthy (env w !! "CLICKUP_TOKEN") = true ->
  truthy (so_query so) = true ->
  (forall req msg, https_request w req <> RequestThrows msg) ->
  exists res t',
    searchClickUp w so t = (Ret res, t') /\
    sr_success res = true /\ sr_error res = None.
Proof.
  intros Htok Hq Hreq. unfold searchClickUp. rewrite Htok. simpl.
  destruct (so_query so) as [[|c query]|]; try discriminate.
  set (spaceId := default DEFAULT_SPACE_ID (so_spaceId so)).
  set (limit := default 20 (so_limit so)).
  search_cases spaceId (String c query) limit t;
    try (exfalso; eapply Hreq; eassumption);
    eexists _, _; (split; [reflexivity|]); split; reflexivity.
Qed.

(** X8: an envelope with [success: false] comes only from a request that
    could not be built; it carries the error message, no docs, and a
    [totalResults] of 0 whatever tasks it holds. *)
Theorem searchClickUp_failure_envelope (so : searchOptions) (t t' : list event)
    (res : search_result) :
  searchClickUp w so t = (Ret res, t') ->
  sr_success res = false ->
  totalResults (sr_results res) = 0%nat /\
  res_docs (sr_results res) = [] /\
  exists req msg,
    https_request w req = RequestThrows msg /\ sr_error res = Some msg.
Proof.
  unfold searchClickUp.
  destruct (negb (truthy (env w !! "CLICKUP_TOKEN"))); [discriminate|].
  destruct (so_query so) as [[|c query]|]; try discriminate.
  set (spaceId := default DEFAULT_SPACE_ID (so_spaceId so)).
  set (limit := default 20 (so_limit so)).
  search_cases spaceId (String c query) limit t;
    intros [= <- <-]; simpl; try discriminate; intros _;
    repeat split; eauto.
Qed.

(** X9: every item of a search result carries its tag: the tasks have
    [type = "task"] and the docs [type = "doc"]. *)
Theorem searchClickUp_tags (so : searchOptions) (t t' : list event)
    (res : search_result) :
  searchClickUp w so t = (Ret res, t') ->
  Forall (fun x => ts_type x = "task") (res_tasks (sr_results res)) /\
  Forall (fun d => ds_type d = "doc") (res_docs (sr_results res)).
Proof.
  unfold searchClickUp.
  destruct (negb (truthy (env w !! "CLICKUP_TOKEN"))); [discriminate|].
  destruct (so_query so) as [[|c query]|]; try discriminate.
  set (spaceId := default DEFAULT_SPACE_ID (so_spaceId so)).
  set (limit := default 20 (so_limit so)).
  search_cases spaceId (String c query) limit t;
    intros [= <- <-]; simpl; split; trivial; constructor.
Qed.

(** X10: a search of type ["all"], or with no type, whose requests can be
    built sends the task request and then the docs request, and nothing
    else. *)
Theorem searchClickUp_all_sends_both (so : searchOptions) (t : list event)
    (query : string) :
  truthy (env w !! "CLICKUP_TOKEN") = true ->
  so_query so = Some query -> query <> "" ->
  so_type so = None \/ so_type so = Some "all" ->
  (forall req msg, https_request w req <> RequestThrows msg) ->
  let spaceId := default DEFAULT_SPACE_ID (so_spaceId so) in
  let limit := default 20 (so_limit so) in
  snd (searchClickUp w so t) =
    t ++ [Https (search_request w spaceId "task" query limit);
          Https (search_request w spaceId "doc" query limit)].
Proof.
  intros Htok Hq Hne Htype Hreq spaceId limit.
  unfold searchClickUp. rewrite Htok, Hq. simpl.
  destruct query as [|c query]; [contradiction|].
  assert (Hty : default "all" (so_type so) = "all")
    by (destruct Htype as [-> | ->]; reflexivity).
  rewrite Hty. simpl. fold spaceId limit.
  destruct (searchTasks_outcome spaceId (String c query) limit t)
    as [(msg & Hthrow & _)|(taskResults & Ht & _)];
    [exfalso; exact (Hreq _ _ Hthrow)|].
  destruct (searchDocs_outcome spaceId (String c query) limit
              (t ++ [Https (search_request w spaceId "task" (String c query) limit)]))
    as [(msg & Hthrow & _)|(docResults & Hd & _)];
    [exfalso; exact (Hreq _ _ Hthrow)|].
  unfold try_catch, mbind, M_bind, mret, M_ret. rewrite Ht, Hd. simpl.
  now rewrite <- app_assoc.
Qed.

(** X11: a search whose type is none of ["all"], ["tasks"] and ["docs"]
    sends nothing and succeeds with both lists empty. *)
Theorem searchClickUp_other_type (so : searchOptions) (t : list event)
    (query type : string) :
  truthy (env w !! "CLICKUP_TOKEN") = true ->
  so_query so = Some query -> query <> "" ->
  so_type so = Some type ->
  type <> "all" -> type <> "tasks" -> type <> "docs" ->
  searchClickUp w so t =
  (Ret {| sr_success := true; sr_error := None;
          sr_results := {| res_tasks := []; res_docs := []; totalResults := 0;
                           res_query := query;
                           res_spaceId := default DEFAULT_SPACE_ID (so_spaceId so) |} |},
   t).
Proof.
  intros Htok Hq Hne Htype Hall Htasks Hdocs.
  unfold searchClickUp. rewrite Htok, Hq, Htype. simpl.
  destruct query as [|c query]; [contradiction|].
  apply String.eqb_neq in Hall, Htasks, Hdocs. rewrite Hall, Htasks, Hdocs.
  reflexivity.
Qed.
End SearchMore.

(** ** The query in the path of a search *)



(** ** Lists and task context *)

Section Reads.
Variable w : World.
Variable ws : Workspace.

(** X13: whenever [getLists] returns a result, its one request went to the
    list endpoint of the space (space 6942940 when none is given) and was
    answered with a body that parses; [success] holds exactly for a status
    in 200-299, then with the lists of the body ([[]] when it has none);
    otherwise the lists are empty and the error message is not. *)
Theorem getLists_result (spaceId : option string) (t t' : list event)
    (res : lists_result) :
  getLists w ws spaceId t = (Ret res, t') ->
  let req := {| method := "GET";
                path := "/api/v2/space/" +:+ default "6942940" spaceId +:+ "/list";
                authorization := env w !! "CLICKUP_TOKEN";
                body := None |} in
  exists statusCode response,
    t' = t ++ [Https req] /\
    space_lists ws req = Reply statusCode (inr response) /\
    (lr_success res = true <-> 200 <= statusCode < 300) /\
    (lr_success res = true -> lr_lists res = default [] (lb_lists response)) /\
    (lr_success res = false ->
     lr_lists res = [] /\ exists e, lr_error res = Some e /\ e <> "").
Proof.
  unfold getLists.
  destruct (negb (truthy (env w !! "CLICKUP_TOKEN"))); [discriminate|].
  change DEFAULT_SPACE_ID with "6942940".
  destruct (space_lists ws _) as [msg|msg|statusCode [parseError|response]] eqn:E;
    run; try discriminate.
  destruct (is_2xx statusCode) eqn:H2; intros [= <- <-];
    exists statusCode, response; (split; [reflexivity|]);
    (split; [reflexivity|]); simpl.
  - apply is_2xx_spec in H2. split; [|split].
    + split; [intros _; exact H2 | reflexivity].
    + reflexivity.
    + discriminate.
  - split; [|split].
    + split; [discriminate|]. intros Hr. apply is_2xx_spec in Hr. congruence.
    + discriminate.
    + intros _. split; [reflexivity|].
      exists (or_string (lb_err response) "Failed to fetch lists").
      split; [reflexivity|].
      unfold or_string. destruct (lb_err response) as [[|? ?]|]; discriminate.
Qed.

(** X14: [getTaskContext] reads [response.status.status] without a guard: a
    task answered with a 2xx status whose body has no [status] object makes
    it throw a parse failure after the request was sent, although the body
    did parse; with a [status] object the context is built from the body. *)
Theorem getTaskContext_status (taskId : string) (t : list event)
    (statusCode : Z) (response : task_body) :
  truthy (env w !! "CLICKUP_TOKEN") = true ->
  let req := {| method := "GET"; path := "/api/v2/task/" +:+ taskId;
                authorization := env w !! "CLICKUP_TOKEN"; body := None |} in
  task_details ws req = Reply statusCode (inr response) ->
  200 <= statusCode < 300 ->
  (tb_status response = None ->
   exists detail,
     getTaskContext w ws taskId t =
       (Throw ("Failed to parse response: " +:+ detail), t ++ [Https req])) /\
  (forall status, tb_status response = Some status ->
   exists res,
     getTaskContext w ws taskId t = (Ret res, t ++ [Https req]) /\
     cr_success res = true /\ cr_task res = Some response /\
     (exists ctx, cr_context res = Some ctx /\
        ctx_title ctx = tb_name response /\ ctx_status ctx = status /\
        ctx_dueDate ctx = tb_due_date response)).
Proof.
  intros Htok req Hreply Hrange. apply is_2xx_spec in Hrange.
  unfold getTaskContext. rewrite Htok. cbn [negb]. fold req. rewrite Hreply.
  run. rewrite Hrange. split.
  - intros ->. eexists. reflexivity.
  - intros status ->. eexists. split; [reflexivity|].
    repeat split. eexists. repeat split.
Qed.
End Reads.

(** ** The ad platform: configuration, failures, the summary *)

Section AdsMore.
Variable w : World.

Lemma query_as_mcc_blank (customerId query mcc : string) (t : list event) :
  env w !! "GOOGLE_ADS_LOGIN_CUSTOMER_ID" = Some mcc ->
  remove_dashes mcc = "" ->
  query_as_mcc w customerId query t = (Throw "MCC Customer ID not configured", t).
Proof. intros H Hb. unfold query_as_mcc. rewrite H. simpl. now rewrite Hb. Qed.

(** What the shared head of the three operations does: it throws without
    sending, or sends the one query and passes on its outcome. *)
Lemma query_as_mcc_cases (customerId query : string) (t : list event) :
  query_as_mcc w customerId query t = (Throw "MCC Customer ID not configured", t) \/
  exists mcc,
    query_as_mcc w customerId query t =
    (customer_query w (remove_dashes customerId) mcc
       (env w !! "GOOGLE_ADS_REFRESH_TOKEN") query,
     t ++ [Query (remove_dashes customerId) mcc
             (env w !! "GOOGLE_ADS_REFRESH_TOKEN") query]).
Proof.
  unfold query_as_mcc.
  destruct (remove_dashes <$> env w !! "GOOGLE_ADS_LOGIN_CUSTOMER_ID")
    as [[|c mcc]|]; [now left| |now left].
  right. exists (String c mcc). run.
  destruct (customer_query w _ _ _ _); reflexivity.
Qed.

(** X15: a management-account identifier that is empty or made of dashes
    only counts as missing: nothing is sent and the three operations return
    their fallbacks. *)
Theorem blank_mcc_falls_back (customerId mcc : string) (days : Z) (t : list event) :
  env w !! "GOOGLE_ADS_LOGIN_CUSTOMER_ID" = Some mcc ->
  remove_dashes mcc = "" ->
  getAdSpend w customerId days t =
    (Ret (spend_fallback customerId days),
     t ++ [Console "error" "Error getting ad spend:"
             (Some "MCC Customer ID not configured")]) /\
  getKeywordPerformance w customerId days t =
    (Ret keyword_fallback,
     t ++ [Console "error" "Error getting keyword performance:"
             (Some "MCC Customer ID not configured")]) /\
  getAccountInfo w customerId t =
    (Ret None,
     t ++ [Console "error" "Error getting account info:"
             (Some "MCC Customer ID not configured")]).
Proof.
  intros H Hb. unfold getAdSpend, getKeywordPerformance, getAccountInfo.
  repeat split;
    (erewrite try_catch_throw;
     [| apply bind_throw, (query_as_mcc_blank _ _ mcc); assumption]; reflexivity).
Qed.

(** X16: the three operations never throw, whatever the environment and
    whatever the platform does, and each sends at most one query. *)
Theorem ads_operations_never_throw (customerId : string) (days : Z) (t : list event) :
  (exists s l, getAdSpend w customerId days t = (Ret s, t ++ l) /\
               (length (network_events l) <= 1)%nat) /\
  (exists k l, getKeywordPerformance w customerId days t = (Ret k, t ++ l) /\
               (length (network_events l) <= 1)%nat) /\
  (exists i l, getAccountInfo w customerId t = (Ret i, t ++ l) /\
               (length (network_events l) <= 1)%nat).
Proof.
  unfold getAdSpend, getKeywordPerformance, getAccountInfo.
  repeat split;
    match goal with
    | |- context [query_as_mcc w customerId ?q] =>
        destruct (query_as_mcc_cases customerId q t) as [H|[mcc H]]
    end;
    unfold try_catch, mbind, M_bind, mret, M_ret; rewrite H;
    try destruct (customer_query w _ _ _ _); run;
    rewrite <- ?app_assoc; eexists _, _; (split; [reflexivity|]); simpl; lia.
Qed.

(** X17: when the query itself fails, the error is logged and the caller
    gets the same fallback as without configuration: the sample summary,
    the sample keywords, [null]. *)
Theorem upstream_failure_falls_back (customerId mcc : string) (days : Z)
    (t : list event) (e : string) :
  env w !! "GOOGLE_ADS_LOGIN_CUSTOMER_ID" = Some mcc ->
  remove_dashes mcc <> "" ->
  (forall query,
      customer_query w (remove_dashes customerId) (remove_dashes mcc)
        (env w !! "GOOGLE_ADS_REFRESH_TOKEN") query = Throw e) ->
  let sent query := Query (remove_dashes customerId) (remove_dashes mcc)
                      (env w !! "GOOGLE_ADS_REFRESH_TOKEN") query in
  getAdSpend w customerId days t =
    (Ret (spend_fallback customerId days),
     t ++ [sent (ad_spend_query days);
           Console "error" "Error getting ad spend:" (Some e)]) /\
  getKeywordPerformance w customerId days t =
    (Ret keyword_fallback,
     t ++ [sent (keyword_query days);
           Console "error" "Error getting keyword performance:" (Some e)]) /\
  getAccountInfo w customerId t =
    (Ret None,
     t ++ [sent account_info_query;
           Console "error" "Error getting account info:" (Some e)]).
Proof.
  intros Hmcc Hne Hq sent.
  unfold getAdSpend, getKeywordPerformance, getAccountInfo.
  repeat split;
    (erewrite try_catch_throw;
     [| apply bind_throw; rewrite (query_as_mcc_configured w _ _ mcc t Hmcc Hne);
        simpl; rewrite Hq; reflexivity];
     run; now rewrite <- app_assoc).
Qed.

Lemma spend_loop (rows : list row) (acc : spend_totals) :
  fold_left spend_step rows acc =
  {| acc_totalSpend :=
       fold_left num_add (map c_cost (map campaign_of_row rows)) (acc_totalSpend acc);
     acc_totalImpressions :=
       fold_left num_add (map c_impressions (map campaign_of_row rows))
         (acc_totalImpressions acc);
     acc_totalClicks :=
       fold_left num_add (map c_clicks (map campaign_of_row rows)) (acc_totalClicks acc);
     acc_totalConversions :=
       fold_left num_add (map c_conversions (map campaign_of_row rows))
         (acc_totalConversions acc);
     acc_campaigns := acc_campaigns acc ++ map campaign_of_row rows |}.
Proof.
  revert acc. induction rows as [|r rows IH]; intros acc; simpl.
  - rewrite app_nil_r. now destruct acc.
  - rewrite IH. simpl. now rewrite <- app_assoc.
Qed.

(** X18: in a summary computed from the rows of a successful query the
    breakdown has one campaign per row, in the order of the rows, and the
    totals are those of the breakdown: [totalSpend] is the sum of the
    campaigns' costs rounded to two decimals, and the impressions, clicks and
    conversions are the sums of the campaigns' (left to right, from 0). *)
Theorem getAdSpend_totals_match_campaigns (customerId mcc : string) (days : Z)
    (rows : list row) (t : list event) :
  env w !! "GOOGLE_ADS_LOGIN_CUSTOMER_ID" = Some mcc ->
  remove_dashes mcc <> "" ->
  customer_query w (remove_dashes customerId) (remove_dashes mcc)
    (env w !! "GOOGLE_ADS_REFRESH_TOKEN") (ad_spend_query days) = Ret rows ->
  exists s t',
    getAdSpend w customerId days t = (Ret s, t') /\
    length (spend_campaigns s) = length rows /\
    map c_id (spend_campaigns s) = map campaign_id rows /\
    totalSpend s = parseFloat (toFixed2 (sum_numbers (map c_cost (spend_campaigns s)))) /\
    totalImpressions s = sum_numbers (map c_impressions (spend_campaigns s)) /\
    totalClicks s = sum_numbers (map c_clicks (spend_campaigns s)) /\
    totalConversions s = sum_numbers (map c_conversions (spend_campaigns s)).
Proof.
  intros Hmcc Hne Hq.
  pose proof (query_as_mcc_configured w customerId (ad_spend_query days) mcc t Hmcc Hne)
    as Hrun.
  simpl in Hrun. rewrite Hq in Hrun.
  eexists _, _. split.
  - unfold getAdSpend. erewrite try_catch_ret; [reflexivity|].
    erewrite bind_ret by exact Hrun. reflexivity.
  - unfold spend_summary. rewrite spend_loop. simpl.
    rewrite length_map, map_map. repeat split; reflexivity.
Qed.
End AdsMore.

(** ** Accounts: the manager flag and the customer identifier *)

Lemma indexOf_zero (l : list string) (x : string) :
  indexOf l x = Some 0%nat <-> head l = Some x.
Proof.
  destruct l as [|y l]; simpl; [split; discriminate|].
  destruct (String.eqb_spec y x) as [->|Hne].
  - split; reflexivity.
  - split.
    + destruct (indexOf l x); discriminate.
    + intros [= ->]. contradiction.
Qed.

(** X19: when the platform lists resource names, the accounts are one per
    name, in order, and [isManager] is true exactly for the entries whose
    resource name equals the first one: the first entry always, and any
    later entry that repeats its name. *)
Theorem listAccessibleAccounts_manager_flag (w : World) (t : list event)
    (names : list string) :
  listAccessibleCustomers w (env w !! "GOOGLE_ADS_REFRESH_TOKEN") = Ret (Some names) ->
  exists accounts t',
    listAccessibleAccounts w t = (Ret accounts, t') /\
    length accounts = length names /\
    forall (i : nat) (name : string),
      names !! i = Some name ->
      exists acc,
        accounts !! i = Some acc /\
        acc !! "resourceName" = Some (VString name) /\
        acc !! "isManager" = Some (VBool (bool_decide (head names = Some name))).
Proof.
  intros Hlist. rewrite listAccessibleAccounts_run, Hlist. simpl.
  eexists _, _. split; [reflexivity|]. split; [apply length_map|].
  intros i name Hi. exists (make_account names name). split.
  - rewrite list_lookup_fmap, Hi. reflexivity.
  - unfold make_account. split.
    + rewrite lookup_insert_ne by discriminate. apply lookup_insert_eq.
    + rewrite !lookup_insert_ne by discriminate. rewrite lookup_insert_eq.
      do 2 f_equal. apply bool_decide_ext, indexOf_zero.
Qed.

Lemma split_first_char_app (c : ascii) (p rest : string) :
  string_forall (fun x => negb (Ascii.eqb c x)) p = true ->
  split_first (String c "") (p +:+ String c rest) = Some (p, rest).
Proof.
  induction p as [|x p IH]; intros H; rewrite split_first_equation; simpl.
  - now rewrite Ascii.eqb_refl.
  - simpl in H. apply andb_prop in H as [Hx Hp]. apply negb_true_iff in Hx.
    rewrite Hx. now rewrite (IH Hp).
Qed.

(** X20: the customer identifier of an account is the part of its resource
    name between the first slash and the next one (or the end): [123] for
    [customers/123]; a resource name without a slash gives an account whose
    [customerId] is present but [undefined]. *)
Theorem make_account_customerId (names : list string) (p id rest : string) :
  string_forall not_slash p = true ->
  string_forall not_slash id = true ->
  make_account names (p +:+ "/" +:+ id) !! "customerId" = Some (VString id) /\
  make_account names (p +:+ "/" +:+ id +:+ "/" +:+ rest) !! "customerId"
    = Some (VString id) /\
  make_account names p !! "customerId" = Some VUndefined.
Proof.
  intros Hp Hid. unfold make_account. rewrite !lookup_insert_eq.
  unfold split_slash_1. repeat split; do 2 f_equal.
  - change (p +:+ "/" +:+ id) with (p +:+ String "/" id).
    rewrite (split_first_char_app "/" p id Hp).
    now rewrite (split_first_absent_char "/" "" id Hid).
  - change (p +:+ "/" +:+ id +:+ "/" +:+ rest)
      with (p +:+ String "/" (id +:+ String "/" rest)).
    rewrite (split_first_char_app "/" p _ Hp).
    now rewrite (split_first_char_app "/" id rest Hid).
  - now rewrite (split_first_absent_char "/" "" p Hp).
Qed.

(** ** The dispatcher on the registered tools *)

Section DispatcherMore.
Variable w : World.

Lemma ads_operations_return (customerId : string) (days : Z) (t : list event) :
  (exists s t', getAdSpend w customerId days t = (Ret s, t')) /\
  (exists k t', getKeywordPerformance w customerId days t = (Ret k, t')) /\
  (exists i t', getAccountInfo w customerId t = (Ret i, t')).
Proof.
  unfold getAdSpend, getKeywordPerformance, getAccountInfo.
  repeat split; apply try_catch_returns; intros e t0; run; eauto.
Qed.

(** X21: the three tools that take an account answer a call without
    [customerId], or with an empty one, with the failure envelope
    [customerId is required]; nothing is sent, the only events are the two
    console lines. *)
Theorem handleToolCall_requires_customerId (toolName : string) (args : tool_args)
    (t : list event) :
  In toolName ["get_account_info"; "get_ad_spend"; "get_keyword_performance"] ->
  truthy (arg_customerId args) = false ->
  handleToolCall w toolName args t =
  (Ret {| success := false; data := None; message := None;
          error := Some "customerId is required" |},
   t ++ [Console "log" ("MCP Tool Call: " +:+ toolName) None;
         Console "error" "MCP Tool Error:" (Some "customerId is required")]).
Proof.
  intros Hin Hcid. unfold handleToolCall.
  destruct (arg_customerId args) as [[|c cid]|]; try discriminate;
    simpl in Hin; destruct Hin as [<-|[<-|[<-|[]]]]; run;
    now rewrite <- app_assoc.
Qed.

(** X22: for a registered tool called with what it requires, the envelope
    always says [success: true] and carries data: a failure of the ad
    platform, or a missing configuration, never shows in the envelope. *)
Theorem handleToolCall_always_succeeds (toolName : string) (args : tool_args)
    (t : list event) :
  In toolName (map tool_name tools) ->
  toolName = "list_google_ads_accounts" \/ truthy (arg_customerId args) = true ->
  exists e t',
    handleToolCall w toolName args t = (Ret e, t') /\
    success e = true /\ error e = None /\ is_Some (data e) /\ is_Some (message e).
Proof.
  intros Hin Hargs. unfold handleToolCall, console_log.
  unfold mbind at 1, M_bind at 1. unfold emit at 1.
  set (t0 := t ++ [_]).
  destruct (ads_operations_return (default "" (arg_customerId args))
              (default 7 (arg_days args)) t0)
    as ((s & ts & Hs) & (k & tk & Hk) & (i & ti & Hi)).
  destruct (listAccessibleAccounts_returns w t0) as (accounts & ta & Ha & _).
  simpl in Hin. destruct Hin as [<-|[<-|[<-|[<-|[]]]]]; simpl.
  - unfold try_catch, mbind, M_bind. rewrite Ha.
    eexists _, _. split; [reflexivity|]. simpl. eauto.
  - destruct Hargs as [|Hcid]; [discriminate|].
    destruct (arg_customerId args) as [[|c cid]|]; try discriminate.
    unfold try_catch, mbind, M_bind. simpl in Hi. rewrite Hi.
    eexists _, _. split; [reflexivity|]. simpl. eauto.
  - destruct Hargs as [|Hcid]; [discriminate|].
    destruct (arg_customerId args) as [[|c cid]|]; try discriminate.
    unfold try_catch, mbind, M_bind. simpl in Hs. rewrite Hs.
    eexists _, _. split; [reflexivity|]. simpl. eauto.
  - destruct Hargs as [|Hcid]; [discriminate|].
    destruct (arg_customerId args) as [[|c cid]|]; try discriminate.
    unfold try_catch, mbind, M_bind. simpl in Hk. rewrite Hk.
    eexists _, _. split; [reflexivity|]. simpl. eauto.
Qed.

(** X23: [get_ad_spend] called without [days] looks seven days back: the
    one query sent is the spend query for [LAST_7_DAYS], on the customer
    identifier with its dashes removed, and the envelope carries the
    summary of its rows for the identifier as it was given. *)
Theorem handleToolCall_ad_spend_default_days (customerId mcc : string)
    (rows : list row) (t : list event) :
  customerId <> "" ->
  env w !! "GOOGLE_ADS_LOGIN_CUSTOMER_ID" = Some mcc ->
  remove_dashes mcc <> "" ->
  customer_query w (remove_dashes customerId) (remove_dashes mcc)
    (env w !! "GOOGLE_ADS_REFRESH_TOKEN") (ad_spend_query 7) = Ret rows ->
  handleToolCall w "get_ad_spend"
    {| arg_customerId := Some customerId; arg_days := None |} t =
  (Ret {| success := true;
          data := Some (DataSpend (spend_summary customerId 7 rows));
          message := Some ("Ad spend data retrieved for " +:+ customerId +:+
                           " (7 days)");
          error := None |},
   t ++ [Console "log" "MCP Tool Call: get_ad_spend" None;
         Query (remove_dashes customerId) (remove_dashes mcc)
           (env w !! "GOOGLE_ADS_REFRESH_TOKEN") (ad_spend_query 7)]).
Proof.
  intros Hcid Hmcc Hne Hq. unfold handleToolCall, console_log.
  unfold mbind at 1, M_bind at 1. unfold emit at 1. simpl.
  destruct customerId as [|c cid]; [contradiction|].
  set (t0 := t ++ [_]).
  pose proof (query_as_mcc_configured w (String c cid) (ad_spend_query 7) mcc t0 Hmcc Hne)
    as Hrun.
  cbv zeta in Hrun. rewrite Hq in Hrun.
  assert (Hspend : getAdSpend w (String c cid) 7 t0 =
                   (Ret (spend_summary (String c cid) 7 rows),
                    t0 ++ [Query (remove_dashes (String c cid)) (remove_dashes mcc)
                             (env w !! "GOOGLE_ADS_REFRESH_TOKEN") (ad_spend_query 7)])).
  { unfold getAdSpend. erewrite try_catch_ret; [reflexivity|].
    erewrite bind_ret by exact Hrun. reflexivity. }
  unfold try_catch, mbind, M_bind. rewrite Hspend. unfold t0.
  unfold mret, M_ret, success_envelope. now rewrite <- app_assoc.
Qed.
End DispatcherMore.

(** ** The analyzer: size of the list, the defaults, the lead and term rules *)

Section AnalyzerMore.
Variable w : World.

Lemma block_lengths (r : report) :
  (length (lead_recommendation (threeDaysAgo w) r) <= 1)%nat /\
  (length (term_recommendation r) <= 1)%nat /\
  (length (campaign_recommendation r) <= 1)%nat.
Proof.
  unfold lead_recommendation, term_recommendation, campaign_recommendation.
  repeat split.
  - destruct (leads r) as [[|l ls]|]; simpl; try lia.
    destruct (_ =? _)%nat; simpl; lia.
  - destruct (searchTerms r) as [[|x xs]|]; simpl; try lia.
    destruct (_ <? _)%nat; simpl; lia.
  - destruct (campaigns r) as [[|c cs]|]; simpl; try lia.
    destruct (_ <? _)%nat; simpl; lia.
Qed.

(** X24: the analyzer returns one, two or three recommendations: at most
    one per rule, or the two defaults. *)
Theorem analyzeGoogleAdsReport_bounded (r : report) :
  (1 <= length (recommendations (analyzeGoogleAdsReport w r)) <= 3)%nat.
Proof.
  rewrite analyzeGoogleAdsReport_recommendations.
  destruct (block_lengths r) as (H1 & H2 & H3).
  destruct (_ ++ _ ++ _) as [|x fired] eqn:E; [simpl; lia|].
  rewrite <- E, !length_app. split; [|lia].
  apply (f_equal (@length string)) in E. rewrite !length_app in E. simpl in E. lia.
Qed.

(** The sentences of the three rules, told apart from one another and from
    the defaults by reading them. *)
Ltac read_sentences :=
  unfold lead_recommendation, term_recommendation, campaign_recommendation;
  repeat match goal with
         | |- context [match ?x with _ => _ end] => destruct x; simpl
         | |- context [if ?b then _ else _] => destruct b; simpl
         end;
  intuition (try discriminate; eauto).

Lemma fired_not_default (r : report) (x : string) :
  In x (lead_recommendation (threeDaysAgo w) r ++ term_recommendation r ++
        campaign_recommendation r) ->
  ~ In x default_recommendations.
Proof.
  rewrite !in_app_iff. intros [H|[H|H]] Hd; simpl in Hd;
    destruct Hd as [<-|[<-|[]]]; revert H; read_sentences.
Qed.

(** X25: the defaults never stand beside a finding: a list that holds one
    of the two default recommendations is exactly the two of them, and then
    no rule has fired. *)
Theorem defaults_stand_alone (r : report) :
  let recs := recommendations (analyzeGoogleAdsReport w r) in
  In "Review search terms" recs \/ In "Check ad copy performance" recs ->
  recs = ["Review search terms"; "Check ad copy performance"] /\
  lead_recommendation (threeDaysAgo w) r = [] /\
  term_recommendation r = [] /\
  campaign_recommendation r = [].
Proof.
  intros recs. unfold recs. rewrite analyzeGoogleAdsReport_recommendations.
  destruct (_ ++ _ ++ _) as [|x fired] eqn:E.
  - intros _. apply app_eq_nil in E as [-> E]. apply app_eq_nil in E as [-> ->].
    repeat split.
  - intros H. exfalso.
    assert (Hd : exists d, In d (x :: fired) /\ In d default_recommendations).
    { destruct H as [H|H]; eexists; (split; [exact H|]); simpl; auto. }
    destruct Hd as (d & Hin & Hd). rewrite <- E in Hin.
    exact (fired_not_default r d Hin Hd).
Qed.

Lemma recommendations_In (r : report) (x : string) :
  ~ In x default_recommendations ->
  In x (recommendations (analyzeGoogleAdsReport w r)) <->
  In x (lead_recommendation (threeDaysAgo w) r ++ term_recommendation r ++
        campaign_recommendation r).
Proof.
  intros Hd. rewrite analyzeGoogleAdsReport_recommendations.
  destruct (_ ++ _ ++ _) as [|y fired]; [|reflexivity].
  split; [intros H; contradiction | intros []].
Qed.

(** X26: the two lead sentences exclude each other and depend on the leads
    only: [No lead data found] is given exactly when the lead list is
    absent or empty, [No leads generated in the last 3 days] exactly when
    it is not empty and no lead is dated three days ago or later (a lead
    whose date does not parse is not recent). *)
Theorem lead_sentences (r : report) :
  let recs := recommendations (analyzeGoogleAdsReport w r) in
  (In "No lead data found - check data export" recs <->
   leads r = None \/ leads r = Some []) /\
  (In "No leads generated in the last 3 days - review campaign performance" recs <->
   exists ls, leads r = Some ls /\ ls <> [] /\
              forall l, In l ls -> is_recent (threeDaysAgo w) l = false).
Proof.
  intros recs. unfold recs.
  rewrite !recommendations_In by (simpl; intuition discriminate).
  rewrite !in_app_iff.
  assert (Hfilter : forall ls : list lead,
             List.filter (is_recent (threeDaysAgo w)) ls = [] <->
             forall l, In l ls -> is_recent (threeDaysAgo w) l = false).
  { intros ls. induction ls as [|l ls IH]; simpl.
    - split; [intros _ l [] | reflexivity].
    - destruct (is_recent (threeDaysAgo w) l) eqn:Hl.
      + split; [discriminate|]. intros H. specialize (H l (or_introl eq_refl)).
        congruence.
      + rewrite IH. split.
        * intros H l' [<-|Hin]; auto.
        * intros H l' Hin. apply H. now right. }
  split.
  - split.
    + intros [H|[H|H]]; revert H; read_sentences.
    + intros [H|H]; left; unfold lead_recommendation; rewrite H; now left.
  - split.
    + intros [H|[H|H]]; [| revert H; read_sentences..].
      unfold lead_recommendation in H.
      destruct (leads r) as [[|l0 ls]|];
        [destruct H as [H|[]]; discriminate H |
         | destruct H as [H|[]]; discriminate H].
      exists (l0 :: ls). split; [reflexivity|]. split; [discriminate|].
      apply Hfilter. cbv zeta in H.
      destruct (List.filter _ (l0 :: ls)); [reflexivity|]. destruct H.
    + intros (ls & Hls & Hne & Hold). left. unfold lead_recommendation.
      rewrite Hls. destruct ls as [|l0 ls]; [contradiction|].
      apply Hfilter in Hold. rewrite Hold. now left.
Qed.

Lemma toLowerCase_app (a b : string) :
  toLowerCase (a +:+ b) = toLowerCase a +:+ toLowerCase b.
Proof. induction a as [|x a IH]; simpl; [reflexivity | now rewrite IH]. Qed.

(** X27: the relevance test ignores letter case and looks for the
    vocabulary words anywhere in the term: a term that contains, in any
    case, one of [build], [renovation], [extension], [construction],
    [remodel], [home improvement] is not counted, whether it comes as a
    string or as an object; an object without [term] is counted. *)
Theorem related_terms (before word after v : string) :
  In v relevantTerms ->
  toLowerCase word = v ->
  is_unrelated (TermString (before +:+ word +:+ after)) = false /\
  is_unrelated (TermObject (Some (before +:+ word +:+ after))) = false /\
  is_unrelated (TermObject None) = true.
Proof.
  intros Hv Hword.
  assert (H : existsb (fun relevant =>
                includes (toLowerCase (before +:+ word +:+ after)) relevant)
              relevantTerms = true).
  { apply existsb_exists. exists v. split; [exact Hv|].
    rewrite !toLowerCase_app, Hword.
    now apply (includes_intro _ _ (toLowerCase before) (toLowerCase after)). }
  unfold is_unrelated. simpl default. cbv zeta.
  repeat split; now rewrite ?H.
Qed.
End AnalyzerMore.

(** ** The week string in UTC *)

Lemma four_digit_year (year : Z) :
  1000 <= year <= 9999 -> String.length (pretty year) = 4%nat.
Proof.
  intros H.
  assert (Hall : forallb (fun y => Nat.eqb (String.length (pretty y)) 4)
                   (seqZ 1000 9000) = true) by (vm_compute; reflexivity).
  rewrite forallb_forall in Hall.
  apply Nat.eqb_eq, Hall, list_elem_of_In, elem_of_seqZ. lia.
Qed.

(** X28: in a process whose local time is UTC, in the years 1000 to 9999,
    the week string is eight characters: the four digits of the year, [-W],
    and two digits for a week between 00 and 53, which is the zero-based
    index of the day in the year divided by seven and rounded up; 53 comes
    on the 366th day of a year only. *)
Theorem getISOWeek_shape_utc (w : World) :
  in_utc w ->
  1000 <= utc_getFullYear (now w) <= 9999 ->
  let days := (now w - utc_startOfYear (utc_getFullYear (now w))) / msPerDay in
  exists week,
    getISOWeek w = pretty (utc_getFullYear (now w)) +:+ "-W" +:+ padStart2 (pretty week) /\
    String.length (getISOWeek w) = 8%nat /\
    string_forall is_digit (pretty (utc_getFullYear (now w))) = true /\
    string_forall is_digit (padStart2 (pretty week)) = true /\
    0 <= week <= 53 /\ week = ceil_div7 days /\
    (week = 53 -> days = 365).
Proof.
  intros [Hy Hs] Hyear days.
  destruct (getISOWeek_week_number w) as (week & Hweek & Hrange & _ & Hlen & Heq).
  { rewrite Hy, Hs. apply utc_day_index_range. }
  rewrite Hy in Heq. rewrite Hy, Hs in Hweek. fold days in Hweek.
  assert (Hd : forall n, is_digit (pretty_N_char n) = true)
    by (intros n; unfold pretty_N_char; repeat case_match; reflexivity).
  assert (Hdigits : forall z, 0 <= z -> string_forall is_digit (pretty z) = true).
  { intros [|p|p] Hz; [reflexivity| |lia].
    apply (string_forall_pretty_N is_digit (Npos p) Hd). }
  exists week. split; [exact Heq|]. split; [|split; [|split; [|split; [|split]]]].
  - rewrite Heq, !append_length, four_digit_year, Hlen by exact Hyear. reflexivity.
  - apply Hdigits. lia.
  - apply string_forall_padStart2; [reflexivity | apply Hdigits; lia].
  - exact Hrange.
  - exact Hweek.
  - intros H53. pose proof (ceil_div7_spec days) as Hspec.
    pose proof (utc_day_index_range (now w)) as Hidx. fold days in Hidx. lia.
Qed.

(** ** lib/auth.js: the bearer check and the access token *)

Lemma split_on_nonempty (sep : ascii) (s : string) : split_on sep s <> [].
Proof.
  destruct s as [|c s]; simpl; [discriminate|].
  destruct (Ascii.eqb c sep); [discriminate|].
  destruct (split_on sep s); discriminate.
Qed.

Lemma split_on_whole (sep : ascii) (s : string) :
  string_forall (fun x => negb (Ascii.eqb sep x)) s = true -> split_on sep s = [s].
Proof.
  induction s as [|c s IH]; simpl; [reflexivity|].
  intros [Hc Hs]%andb_prop. apply negb_true_iff in Hc.
  rewrite Ascii.eqb_sym, Hc, (IH Hs). reflexivity.
Qed.

Lemma split_on_app (sep : ascii) (p rest : string) :
  string_forall (fun x => negb (Ascii.eqb sep x)) p = true ->
  split_on sep (p +:+ String sep rest) = p :: split_on sep rest.
Proof.
  induction p as [|c p IH]; simpl.
  - intros _. now rewrite Ascii.eqb_refl.
  - intros [Hc Hp]%andb_prop. apply negb_true_iff in Hc.
    rewrite Ascii.eqb_sym, Hc, (IH Hp). reflexivity.
Qed.

Lemma split_on_inv (sep : ascii) (s x : string) (rest : list string) :
  split_on sep s = x :: rest ->
  string_forall (fun c => negb (Ascii.eqb sep c)) x = true /\
  ((rest = [] /\ s = x) \/
   (exists s', s = x +:+ String sep s' /\ rest = split_on sep s')).
Proof.
  revert x rest. induction s as [|c s IH]; intros x rest; simpl.
  - intros [= <- <-]. split; [reflexivity|]. now left.
  - destruct (Ascii.eqb c sep) eqn:Hc.
    + apply Ascii.eqb_eq in Hc as ->. intros [= <- <-].
      split; [reflexivity|]. right. now exists s.
    + destruct (split_on sep s) as [|y ys] eqn:Hs;
        [now destruct (split_on_nonempty sep s)|].
      intros [= <- <-]. destruct (IH y ys eq_refl) as [Hy Hcases].
      split; [simpl; now rewrite Ascii.eqb_sym, Hc, Hy|].
      destruct Hcases as [[-> ->]|(s' & -> & ->)]; [now left|].
      right. now exists s'.
Qed.

(** X29: the middleware lets a request through exactly when its
    [authorization] header, cut at the spaces, starts with the two pieces
    [Bearer] and the configured token: the header is [Bearer <token>],
    possibly followed by a space and anything, and the token has no space
    in it (a configured token with a space can never be matched). When no
    token is configured, the header [Bearer] alone passes. *)
Theorem authMiddleware_accepts (authToken : option string) (header : string) :
  authMiddleware authToken (Some header) = Next <->
  match authToken with
  | Some token =>
      string_forall not_space token = true /\
      (header = "Bearer " +:+ token \/
       exists rest, header = "Bearer " +:+ token +:+ " " +:+ rest)
  | None => header = "Bearer"
  end.
Proof.
  split.
  - unfold authMiddleware. destruct header as [|c0 h0]; [discriminate|].
    set (header := String c0 h0).
    destruct (split_on " " header) as [|x rest] eqn:Hparts;
      [now destruct (split_on_nonempty " " header)|].
    cbn [lookup list_lookup].
    destruct (bool_decide (Some x = Some "Bearer")) eqn:Hx; [|discriminate].
    apply bool_decide_eq_true in Hx. injection Hx as ->.
    destruct (bool_decide (rest !! 0%nat = authToken)) eqn:Htok; [|discriminate].
    apply bool_decide_eq_true in Htok. intros _.
    apply split_on_inv in Hparts as [_ Hcases].
    destruct authToken as [token|].
    + destruct Hcases as [[-> _]|(s' & Hh & Hrest)]; [discriminate|].
      destruct rest as [|y rest']; [discriminate|]. injection Htok as ->.
      symmetry in Hrest. apply split_on_inv in Hrest as [Hns Hcases].
      split; [exact Hns|]. rewrite Hh.
      destruct Hcases as [[_ ->]|(s'' & -> & _)]; [now left|].
      right. now exists s''.
    + destruct Hcases as [[_ Hh]|(s' & _ & Hrest)]; [exact Hh|].
      destruct rest; [|discriminate].
      symmetry in Hrest. now destruct (split_on_nonempty " " s').
  - destruct authToken as [token|].
    + intros [Hns [->| [rest ->]]]; unfold authMiddleware; simpl.
      * rewrite (split_on_whole " " token Hns). simpl.
        now rewrite bool_decide_eq_true_2.
      * rewrite (split_on_app " " token rest Hns). simpl.
        now rewrite bool_decide_eq_true_2.
    + intros ->. reflexivity.
Qed.

Section AccessToken.
Variable w : World.
Variable o : OAuth.

(** X30: where the access token comes from. Without a client identifier or
    a client secret the call fails at once. Otherwise a refresh that
    succeeds decides alone: its [access_token] is returned, even when the
    answer has none, whatever token the environment holds. When there is no
    refresh token, or the refresh fails (which is only logged), the token of
    the environment is returned, and the call fails only when that one is
    missing too. *)
Theorem getValidAccessToken_sources (t : list event) :
  (truthy (env w !! "GOOGLE_CLIENT_ID") = false \/
   truthy (env w !! "GOOGLE_CLIENT_SECRET") = false ->
   getValidAccessToken w o t = (Throw "Google OAuth credentials not configured", t)) /\
  (forall clientId clientSecret,
      env w !! "GOOGLE_CLIENT_ID" = Some clientId -> clientId <> "" ->
      env w !! "GOOGLE_CLIENT_SECRET" = Some clientSecret -> clientSecret <> "" ->
      let from_environment (t' : list event) :=
        if truthy (env w !! "GOOGLE_OAUTH_ACCESS_TOKEN")
        then (Ret (env w !! "GOOGLE_OAUTH_ACCESS_TOKEN"), t')
        else (Throw "No valid access token available. Please complete OAuth flow first.",
              t') in
      (truthy (env w !! "GOOGLE_REFRESH_TOKEN") = false ->
       getValidAccessToken w o t = from_environment t) /\
      (forall refreshToken,
          env w !! "GOOGLE_REFRESH_TOKEN" = Some refreshToken -> refreshToken <> "" ->
          match refreshAccessToken o refreshToken clientId clientSecret with
          | Ret response =>
              getValidAccessToken w o t = (Ret (access_token response), t)
          | Throw error =>
              getValidAccessToken w o t =
              from_environment (t ++ [Console "warn" "Failed to refresh token:" (Some error)])
          end)).
Proof.
  unfold getValidAccessToken. split.
  - intros [H|H].
    + destruct (env w !! "GOOGLE_CLIENT_ID") as [[|c s]|]; try discriminate;
        reflexivity.
    + destruct (env w !! "GOOGLE_CLIENT_ID") as [[|c s]|]; try reflexivity.
      destruct (env w !! "GOOGLE_CLIENT_SECRET") as [[|c' s']|]; try discriminate;
        reflexivity.
  - intros clientId clientSecret Hcid Hid Hcs Hsecret. rewrite Hcid, Hcs.
    destruct clientId as [|c s]; [contradiction|].
    destruct clientSecret as [|c' s']; [contradiction|]. cbv zeta. split.
    + intros Hr.
      destruct (env w !! "GOOGLE_REFRESH_TOKEN") as [[|cr sr]|]; try discriminate;
        destruct (truthy (env w !! "GOOGLE_OAUTH_ACCESS_TOKEN")); reflexivity.
    + intros refreshToken -> Hrt. destruct refreshToken as [|cr sr]; [contradiction|].
      destruct (refreshAccessToken o _ _ _) as [response|error]; [reflexivity|].
      run.
      destruct (truthy (env w !! "GOOGLE_OAUTH_ACCESS_TOKEN")); reflexivity.
Qed.
End AccessToken.

(** ** The further properties on concrete runs *)

Lemma createTask_guards_witness :
  createTask unconfigured_world two_token_task [] =
    (Throw "CLICKUP_TOKEN environment variable is required", []) /\
  createTask clickup_world untitled_task [] =
    (Throw "Task title and listId are required", []).
Proof.
  split.
  - apply (proj1 (createTask_guards unconfigured_world two_token_task [])).
    reflexivity.
  - apply (proj2 (createTask_guards clickup_world untitled_task [])).
    + reflexivity.
    + left. reflexivity.
Defined.


Lemma createAdAuditTask_request_witness :
  snd (createAdAuditTask clickup_world sample_audit []) =
  [] ++ [Https {| method := "POST";
                  path := "/api/v2/list/" +:+ "901" +:+ "/task";
                  authorization := env clickup_world !! "CLICKUP_TOKEN";
                  body := Some {| name := "Ad Audit – Week " +:+ getISOWeek clickup_world;
                                  description :=
                                    formatAuditDescription clickup_world sample_audit
                                      ["Review search terms"; "Check ad copy performance"];
                                  status := "to do";
                                  priority := 2;
                                  due_date := Some (now clickup_world + 7 * msPerDay);
                                  assignees := match ad_assigneeId sample_audit with
                                               | Some (String _ _ as x) => [x]
                                               | _ => []
                                               end;
                                  tags := ["ad-audit"; "automated"; "google-ads"] |} |}].
Proof.
  apply (createAdAuditTask_request clickup_world sample_audit []
           "Review search terms" ["Check ad copy performance"] "901").
  - reflexivity.
  - reflexivity.
  - reflexivity.
  - discriminate.
  - intros req msg. simpl. discriminate.
Defined.

Lemma createAdAuditTask_guards_witness :
  createAdAuditTask unconfigured_world sample_audit [] =
    (Throw "CLICKUP_TOKEN environment variable is required", []) /\
  createAdAuditTask clickup_world unlisted_audit [] =
    (Throw "Task title and listId are required", []).
Proof.
  split.
  - apply (proj1 (createAdAuditTask_guards unconfigured_world sample_audit []
                    "Review search terms" ["Check ad copy performance"] eq_refl)).
    reflexivity.
  - apply (proj2 (createAdAuditTask_guards clickup_world unlisted_audit []
                    "Review search terms" [] eq_refl)); reflexivity.
Defined.

Lemma searchClickUp_guards_witness :
  searchClickUp unconfigured_world all_search [] =
    (Throw "CLICKUP_TOKEN environment variable is required", []) /\
  searchClickUp clickup_world empty_search [] =
    (Throw "Search query is required", []).
Proof.
  split.
  - apply (proj1 (searchClickUp_guards unconfigured_world all_search [])).
    reflexivity.
  - apply (proj2 (searchClickUp_guards clickup_world empty_search []));
      reflexivity.
Defined.

Lemma searchClickUp_soft_failures_witness :
  exists res t',
    searchClickUp offline_clickup_world all_search [] = (Ret res, t') /\
    sr_success res = true /\ sr_error res = None.
Proof.
  apply (searchClickUp_soft_failures offline_clickup_world all_search []).
  - reflexivity.
  - reflexivity.
  - intros req msg. simpl. discriminate.
Defined.

Lemma searchClickUp_failure_envelope_witness :
  exists res t',
    searchClickUp unbuildable_world all_search [] = (Ret res, t') /\
    sr_success res = false /\
    totalResults (sr_results res) = 0%nat /\
    res_docs (sr_results res) = [] /\
    exists req msg,
      https_request unbuildable_world req = RequestThrows msg /\
      sr_error res = Some msg.
Proof.
  eexists _, _. split; [vm_compute; reflexivity|]. split; [reflexivity|].
  apply (searchClickUp_failure_envelope unbuildable_world all_search [] []);
    vm_compute; reflexivity.
Defined.

Lemma searchClickUp_tags_witness :
  Forall (fun x => ts_type x = "task") (res_tasks (sr_results tasks_search_result)) /\
  Forall (fun d => ds_type d = "doc") (res_docs (sr_results tasks_search_result)).
Proof.
  apply (searchClickUp_tags clickup_world tasks_search []
           [Https (search_request clickup_world "6942940" "task" "ad audit" 20)]).
  vm_compute. reflexivity.
Defined.

Lemma searchClickUp_all_sends_both_witness :
  snd (searchClickUp offline_clickup_world all_search []) =
  [] ++ [Https (search_request offline_clickup_world "6942940" "task" "ad audit" 20);
         Https (search_request offline_clickup_world "6942940" "doc" "ad audit" 20)].
Proof.
  apply (searchClickUp_all_sends_both offline_clickup_world all_search [] "ad audit").
  - reflexivity.
  - reflexivity.
  - discriminate.
  - left. reflexivity.
  - intros req msg. simpl. discriminate.
Defined.

Lemma searchClickUp_other_type_witness :
  searchClickUp clickup_world odd_search [] =
  (Ret {| sr_success := true; sr_error := None;
          sr_results := {| res_tasks := []; res_docs := []; totalResults := 0;
                           res_query := "ad audit";
                           res_spaceId := default DEFAULT_SPACE_ID (so_spaceId odd_search) |} |},
   []).
Proof.
  apply (searchClickUp_other_type clickup_world odd_search [] "ad audit" "lists");
    (reflexivity || discriminate).
Defined.


Lemma getLists_result_witness :
  exists res t',
    getLists clickup_world sample_workspace None [] = (Ret res, t') /\
    lr_success res = false /\
    let req := {| method := "GET";
                  path := "/api/v2/space/" +:+ default "6942940" None +:+ "/list";
                  authorization := env clickup_world !! "CLICKUP_TOKEN";
                  body := None |} in
    exists statusCode response,
      t' = [] ++ [Https req] /\
      space_lists sample_workspace req = Reply statusCode (inr response) /\
      (lr_success res = true <-> 200 <= statusCode < 300) /\
      (lr_success res = true -> lr_lists res = default [] (lb_lists response)) /\
      (lr_success res = false ->
       lr_lists res = [] /\ exists e, lr_error res = Some e /\ e <> "").
Proof.
  eexists _, _. split; [vm_compute; reflexivity|]. split; [reflexivity|].
  apply (getLists_result clickup_world sample_workspace None []).
  vm_compute. reflexivity.
Defined.

Lemma getTaskContext_status_witness :
  (exists detail,
      getTaskContext clickup_world sample_workspace "86a1" [] =
      (Throw ("Failed to parse response: " +:+ detail),
       [] ++ [Https {| method := "GET"; path := "/api/v2/task/" +:+ "86a1";
                       authorization := env clickup_world !! "CLICKUP_TOKEN";
                       body := None |}])) /\
  (exists res,
      getTaskContext clickup_world open_workspace "86a1" [] =
      (Ret res,
       [] ++ [Https {| method := "GET"; path := "/api/v2/task/" +:+ "86a1";
                       authorization := env clickup_world !! "CLICKUP_TOKEN";
                       body := None |}]) /\
      cr_success res = true /\ cr_task res = Some open_task /\
      (exists ctx, cr_context res = Some ctx /\
         ctx_title ctx = tb_name open_task /\ ctx_status ctx = Some "open" /\
         ctx_dueDate ctx = tb_due_date open_task)).
Proof.
  split.
  - apply (proj1 (getTaskContext_status clickup_world sample_workspace "86a1" []
                    200 statusless_task eq_refl eq_refl ltac:(lia))).
    reflexivity.
  - apply (proj2 (getTaskContext_status clickup_world open_workspace "86a1" []
                    200 open_task eq_refl eq_refl ltac:(lia)) (Some "open")).
    reflexivity.
Defined.

Lemma blank_mcc_falls_back_witness :
  getAdSpend blank_mcc_world "123-456-7890" 30 [] =
    (Ret (spend_fallback "123-456-7890" 30),
     [] ++ [Console "error" "Error getting ad spend:"
              (Some "MCC Customer ID not configured")]) /\
  getKeywordPerformance blank_mcc_world "123-456-7890" 30 [] =
    (Ret keyword_fallback,
     [] ++ [Console "error" "Error getting keyword performance:"
              (Some "MCC Customer ID not configured")]) /\
  getAccountInfo blank_mcc_world "123-456-7890" [] =
    (Ret None,
     [] ++ [Console "error" "Error getting account info:"
              (Some "MCC Customer ID not configured")]).
Proof.
  apply (blank_mcc_falls_back blank_mcc_world "123-456-7890" "---" 30 []);
    reflexivity.
Defined.

Lemma upstream_failure_falls_back_witness :
  let sent query := Query (remove_dashes "123-456-7890") (remove_dashes "111-222-3333")
                      (env failing_ads_world !! "GOOGLE_ADS_REFRESH_TOKEN") query in
  getAdSpend failing_ads_world "123-456-7890" 30 [] =
    (Ret (spend_fallback "123-456-7890" 30),
     [] ++ [sent (ad_spend_query 30);
            Console "error" "Error getting ad spend:" (Some "getaddrinfo ENOTFOUND")]) /\
  getKeywordPerformance failing_ads_world "123-456-7890" 30 [] =
    (Ret keyword_fallback,
     [] ++ [sent (keyword_query 30);
            Console "error" "Error getting keyword performance:"
              (Some "getaddrinfo ENOTFOUND")]) /\
  getAccountInfo failing_ads_world "123-456-7890" [] =
    (Ret None,
     [] ++ [sent account_info_query;
            Console "error" "Error getting account info:"
              (Some "getaddrinfo ENOTFOUND")]).
Proof.
  apply (upstream_failure_falls_back failing_ads_world "123-456-7890" "111-222-3333"
           30 [] "getaddrinfo ENOTFOUND").
  - reflexivity.
  - vm_compute. discriminate.
  - intros query. reflexivity.
Defined.

Lemma getAdSpend_totals_match_campaigns_witness :
  exists s t',
    getAdSpend thirds_world "123-456" 7 [] = (Ret s, t') /\
    length (spend_campaigns s) = length [sample_row 1000000 3] /\
    map c_id (spend_campaigns s) = map campaign_id [sample_row 1000000 3] /\
    totalSpend s = parseFloat (toFixed2 (sum_numbers (map c_cost (spend_campaigns s)))) /\
    totalImpressions s = sum_numbers (map c_impressions (spend_campaigns s)) /\
    totalClicks s = sum_numbers (map c_clicks (spend_campaigns s)) /\
    totalConversions s = sum_numbers (map c_conversions (spend_campaigns s)).
Proof.
  apply (getAdSpend_totals_match_campaigns thirds_world "123-456" "111-222-3333" 7
           [sample_row 1000000 3] []).
  - reflexivity.
  - vm_compute. discriminate.
  - reflexivity.
Defined.

Lemma listAccessibleAccounts_manager_flag_witness :
  exists accounts t',
    listAccessibleAccounts thirds_world [] = (Ret accounts, t') /\
    length accounts = length ["customers/1112223333"] /\
    forall (i : nat) (name : string),
      ["customers/1112223333"] !! i = Some name ->
      exists acc,
        accounts !! i = Some acc /\
        acc !! "resourceName" = Some (VString name) /\
        acc !! "isManager" =
          Some (VBool (bool_decide (head ["customers/1112223333"] = Some name))).
Proof.
  apply (listAccessibleAccounts_manager_flag thirds_world [] ["customers/1112223333"]).
  reflexivity.
Defined.

Lemma make_account_customerId_witness :
  make_account [] ("customers" +:+ "/" +:+ "1112223333") !! "customerId"
    = Some (VString "1112223333") /\
  make_account [] ("customers" +:+ "/" +:+ "1112223333" +:+ "/" +:+ "campaigns/7")
    !! "customerId" = Some (VString "1112223333") /\
  make_account [] "customers" !! "customerId" = Some VUndefined.
Proof.
  apply (make_account_customerId [] "customers" "1112223333" "campaigns/7");
    reflexivity.
Defined.

Lemma handleToolCall_requires_customerId_witness :
  handleToolCall thirds_world "get_ad_spend"
    {| arg_customerId := None; arg_days := Some 30 |} [] =
  (Ret {| success := false; data := None; message := None;
          error := Some "customerId is required" |},
   [] ++ [Console "log" ("MCP Tool Call: " +:+ "get_ad_spend") None;
          Console "error" "MCP Tool Error:" (Some "customerId is required")]).
Proof.
  apply (handleToolCall_requires_customerId thirds_world "get_ad_spend").
  - simpl. right. left. reflexivity.
  - reflexivity.
Defined.

Lemma handleToolCall_always_succeeds_witness :
  exists e t',
    handleToolCall unconfigured_world "get_keyword_performance"
      {| arg_customerId := Some "123-456-7890"; arg_days := None |} [] = (Ret e, t') /\
    success e = true /\ error e = None /\ is_Some (data e) /\ is_Some (message e).
Proof.
  apply (handleToolCall_always_succeeds unconfigured_world "get_keyword_performance").
  - simpl. right. right. right. left. reflexivity.
  - right. reflexivity.
Defined.

Lemma handleToolCall_ad_spend_default_days_witness :
  handleToolCall thirds_world "get_ad_spend"
    {| arg_customerId := Some "123-456"; arg_days := None |} [] =
  (Ret {| success := true;
          data := Some (DataSpend (spend_summary "123-456" 7 [sample_row 1000000 3]));
          message := Some ("Ad spend data retrieved for " +:+ "123-456" +:+ " (7 days)");
          error := None |},
   [] ++ [Console "log" "MCP Tool Call: get_ad_spend" None;
          Query (remove_dashes "123-456") (remove_dashes "111-222-3333")
            (env thirds_world !! "GOOGLE_ADS_REFRESH_TOKEN") (ad_spend_query 7)]).
Proof.
  apply (handleToolCall_ad_spend_default_days thirds_world "123-456" "111-222-3333"
           [sample_row 1000000 3] []).
  - discriminate.
  - reflexivity.
  - vm_compute. discriminate.
  - reflexivity.
Defined.

Lemma defaults_stand_alone_witness :
  recommendations (analyzeGoogleAdsReport unconfigured_world healthy_report) =
    ["Review search terms"; "Check ad copy performance"] /\
  lead_recommendation (threeDaysAgo unconfigured_world) healthy_report = [] /\
  term_recommendation healthy_report = [] /\
  campaign_recommendation healthy_report = [].
Proof.
  apply (defaults_stand_alone unconfigured_world healthy_report).
  left. vm_compute. left. reflexivity.
Defined.

Lemma lead_sentences_witness :
  In "No leads generated in the last 3 days - review campaign performance"
     (recommendations (analyzeGoogleAdsReport unconfigured_world stale_report)) /\
  In "No lead data found - check data export"
     (recommendations (analyzeGoogleAdsReport unconfigured_world slow_report)).
Proof.
  split.
  - apply (proj2 (lead_sentences unconfigured_world stale_report)).
    eexists. split; [reflexivity|]. split; [discriminate|].
    intros l [<-|[<-|[]]]; reflexivity.
  - apply (proj1 (lead_sentences unconfigured_world slow_report)).
    left. reflexivity.
Defined.

Lemma related_terms_witness :
  is_unrelated (TermString ("Loft " +:+ "EXTENSION" +:+ " ideas")) = false /\
  is_unrelated (TermObject (Some ("Loft " +:+ "EXTENSION" +:+ " ideas"))) = false /\
  is_unrelated (TermObject None) = true.
Proof.
  apply (related_terms "Loft " "EXTENSION" " ideas" "extension").
  - simpl. right. right. left. reflexivity.
  - reflexivity.
Defined.

Lemma getISOWeek_shape_utc_witness :
  exists week,
    getISOWeek unconfigured_world =
      pretty (utc_getFullYear (now unconfigured_world)) +:+ "-W" +:+
      padStart2 (pretty week) /\
    String.length (getISOWeek unconfigured_world) = 8%nat /\
    string_forall is_digit (pretty (utc_getFullYear (now unconfigured_world))) = true /\
    string_forall is_digit (padStart2 (pretty week)) = true /\
    0 <= week <= 53 /\
    week = ceil_div7 ((now unconfigured_world -
                       utc_startOfYear (utc_getFullYear (now unconfigured_world)))
                      / msPerDay) /\
    (week = 53 ->
     (now unconfigured_world -
      utc_startOfYear (utc_getFullYear (now unconfigured_world))) / msPerDay = 365).
Proof.
  apply (getISOWeek_shape_utc unconfigured_world).
  - split; reflexivity.
  - vm_compute. split; discriminate.
Defined.

Lemma authMiddleware_accepts_witness :
  authMiddleware (Some "s3cret") (Some "Bearer s3cret trailing words") = Next /\
  authMiddleware None (Some "Bearer") = Next.
Proof.
  split.
  - apply (proj2 (authMiddleware_accepts (Some "s3cret") "Bearer s3cret trailing words")).
    split; [reflexivity|]. right. exists "trailing words". reflexivity.
  - apply (proj2 (authMiddleware_accepts None "Bearer")). reflexivity.
Defined.

Lemma getValidAccessToken_sources_witness :
  getValidAccessToken unconfigured_world refreshing_oauth [] =
    (Throw "Google OAuth credentials not configured", []) /\
  getValidAccessToken oauth_world refreshing_oauth [] = (Ret (Some "ya29.new"), []) /\
  getValidAccessToken oauth_world revoked_oauth [] =
    (Ret (Some "ya29.old"),
     [Console "warn" "Failed to refresh token:"
        (Some "Token refresh error: invalid_grant - Token has been expired or revoked.")]).
Proof.
  split; [|split].
  - apply (proj1 (getValidAccessToken_sources unconfigured_world refreshing_oauth [])).
    left. reflexivity.
  - apply (proj2 (proj2 (getValidAccessToken_sources oauth_world refreshing_oauth [])
                    "client" "secret" eq_refl ltac:(discriminate)
                    eq_refl ltac:(discriminate))
             "1//refresh" eq_refl ltac:(discriminate)).
  - apply (proj2 (proj2 (getValidAccessToken_sources oauth_world revoked_oauth [])
                    "client" "secret" eq_refl ltac:(discriminate)
                    eq_refl ltac:(discriminate))
             "1//refresh" eq_refl ltac:(discriminate)).
Defined.
